(** * Airflow DAG declarations for the MRI pre-processing pipelines

    A shallow embedding of the three Python modules

    - [mri_pipelines/pre_process_dicom.py]  (module [Pipelines]),
    - [mri_pre_process_dicom.py]            (module [Hardcoded]),
    - [preprocessing_steps/copy_to_local.py] (module [CopyToLocal]),

    followed by the properties of the DAGs they declare.

    The Airflow framework itself is not modelled.  What is modelled is what
    the Python code asks of it: the operators it instantiates (class, task id
    and keyword arguments, in source order) and the [set_upstream] calls it
    makes.  A DAG is the record of these declarations. *)

From Stdlib Require Import String Ascii List ZArith.
Import ListNotations.
Local Open Scope string_scope.
Local Open Scope Z_scope.

(** ** Python values *)

(** The values that flow through the three modules.  A function is referred
    to by the module and the name of its [def]; a lambda by its source text
    and the values it closes over; a shell template by the module and the
    variable that holds its text; other objects are opaque. *)
#[warnings="-register-all"]
Inductive pyval : Type :=
| PyNone
| PyBool (b : bool)
| PyInt (n : Z)
| PyFloat (mantissa exponent : Z)
| PyStr (s : string)
| PyTimedelta (seconds : Z)
| PyList (items : list pyval)
| PyDict (entries : list (string * pyval))
| PyFunc (module name : string)
| PyLambda (source : string) (closure : list pyval)
| PyTemplate (module name : string)
| PyObject (descr : string).

(** [timedelta(hours=h, minutes=m, seconds=s)], as its total in seconds. *)
Definition timedelta (hours minutes seconds : Z) : pyval :=
  PyTimedelta (hours * 3600 + minutes * 60 + seconds).

(** The [output_folder_callable] lambdas of the three modules have the same
    source text; each closes over one folder, written [_] here. *)
Definition output_folder_lambda (folder : pyval) : pyval :=
  PyLambda "lambda session_id, **kwargs: _ + '/' + session_id" [folder].

Definition kwargs := list (string * pyval).

Fixpoint lookup (name : string) (kv : kwargs) : option pyval :=
  match kv with
  | [] => None
  | (k, v) :: rest => if String.eqb k name then Some v else lookup name rest
  end.

(** *** The operator [+] *)

(** What evaluating an expression on Python values gives: a value, a
    [TypeError], or nothing the value type can express (float arithmetic,
    operations on opaque objects and on template texts). *)
Inductive evaluation : Type :=
| Value (v : pyval)
| TypeError
| NotModelled.

Definition as_int (v : pyval) : option Z :=
  match v with
  | PyInt n => Some n
  | PyBool true => Some 1
  | PyBool false => Some 0
  | _ => None
  end.

Definition is_number (v : pyval) : bool :=
  match v with
  | PyInt _ | PyBool _ | PyFloat _ _ => true
  | _ => false
  end.

Definition is_opaque (v : pyval) : bool :=
  match v with
  | PyObject _ | PyTemplate _ _ => true
  | _ => false
  end.

(** [a + b].  Strings and lists concatenate, integers (booleans count as 0
    and 1) and timedeltas add; any other pair of builtin values raises
    [TypeError]. *)
Definition py_add (a b : pyval) : evaluation :=
  if (is_opaque a || is_opaque b)%bool then NotModelled
  else
    match as_int a, as_int b with
    | Some x, Some y => Value (PyInt (x + y))
    | _, _ =>
        if (is_number a && is_number b)%bool then NotModelled
        else
          match a, b with
          | PyStr x, PyStr y => Value (PyStr (x ++ y))
          | PyList x, PyList y => Value (PyList (x ++ y)%list)
          | PyTimedelta x, PyTimedelta y => Value (PyTimedelta (x + y))
          | _, _ => TypeError
          end
    end.

(** ** Exceptions and results *)

Inductive exn : Type :=
| NameError (name : string)
| TypeErrorIn (expression : string)
| Raised (by_call : string).

Inductive result (A : Type) : Type :=
| Ok (a : A)
| Err (e : exn).
Arguments Ok {A} a.
Arguments Err {A} e.

Definition rbind {A B} (r : result A) (k : A -> result B) : result B :=
  match r with
  | Ok a => k a
  | Err e => Err e
  end.

(** Name resolution at run time: the scopes are searched innermost first
    (locals, enclosing function, module globals); a name bound in none of
    them raises [NameError].  None of the names resolved below is a Python
    builtin, so the builtins scope is left out. *)
Fixpoint load_name (scopes : list kwargs) (name : string) : result pyval :=
  match scopes with
  | [] => Err (NameError name)
  | scope :: outer =>
      match lookup name scope with
      | Some v => Ok v
      | None => load_name outer name
      end
  end.

(** A list display [[n1, ..., nk]] of names evaluates them left to right. *)
Fixpoint load_names (scopes : list kwargs) (names : list string)
  : result (list pyval) :=
  match names with
  | [] => Ok []
  | n :: rest =>
      rbind (load_name scopes n) (fun v =>
      rbind (load_names scopes rest) (fun vs => Ok (v :: vs)))
  end.

(** ** External collaborators

    Calls that leave the repository.  They are parameters of the model:
    nothing is assumed about what they compute.  The builder module imports
    [dicom_import] and [nifti_import] from [mri_meta_extract], the
    hard-coded module from [util]; the three fields for them stand for the
    functions of whichever module is at hand, and no statement below
    compares the two modules through them. *)
Class Externals : Type := {
  (** [os.path.abspath] *)
  abspath : string -> string;
  (** [os.path.abspath(folder + '/..')] for a [folder] that is an opaque
      object or a template text: what the object's own [+] and [abspath]
      make of it *)
  opaque_parent_folder : pyval -> result string;
  (** [str.lower] *)
  str_lower : string -> string;
  (** [fmt % args], the formatting of a log message *)
  percent_format : string -> list pyval -> string;
  (** [datetime.now()] at workflow-definition time *)
  datetime_now : pyval;
  (** [airflow_pipeline.pipelines.pipeline_trigger] *)
  pipeline_trigger : string -> pyval;
  (** [airflow.configuration.get(section, key)] *)
  configuration_get : string -> string -> string;
  (** the builtin [float] on a configuration string *)
  py_float : string -> pyval;
  (** [dicom_import.visit_info(folder)] *)
  visit_info : string -> result (pyval * pyval);
  (** [dicom_import.dicom2db(folder)] *)
  dicom2db : string -> result unit;
  (** [nifti_import.nifti2db(folder, participant_id, scan_date)] *)
  nifti2db : string -> pyval -> pyval -> result unit
}.

(** [os.path.abspath(folder + '/..')], the sum being evaluated first.  A
    [folder] of a builtin type other than [str] makes the sum raise
    [TypeError]. *)
Definition parent_folder {E : Externals} (folder : pyval) : result pyval :=
  match py_add folder (PyStr "/..") with
  | Value (PyStr path) => Ok (PyStr (abspath path))
  | Value _ => Err (TypeErrorIn "os.path.abspath(folder + '/..')")
  | TypeError => Err (TypeErrorIn "folder + '/..'")
  | NotModelled =>
      rbind (opaque_parent_folder folder) (fun path => Ok (PyStr path))
  end.

(** ** Task callables: calls into external libraries, with their trace *)

Inductive event : Type :=
| Called (fn : string) (args : list pyval).

Definition io (A : Type) : Type := list event -> result A * list event.

Definition io_ret {A} (a : A) : io A := fun tr => (Ok a, tr).

Definition io_bind {A B} (m : io A) (k : A -> io B) : io B :=
  fun tr =>
    match m tr with
    | (Ok a, tr') => k a tr'
    | (Err e, tr') => (Err e, tr')
    end.

(** An external call: the call is recorded, then its outcome is returned
    or propagates as an exception. *)
Definition call {A} (fn : string) (args : list pyval) (outcome : result A)
  : io A :=
  fun tr => (outcome, (tr ++ [Called fn args])%list).

Declare Scope io_scope.
Delimit Scope io_scope with io.
Notation "x <- m ;; k" := (io_bind m (fun x => k))
  (at level 100, m at next level, right associativity) : io_scope.
Notation "m ;; k" := (io_bind m (fun _ => k))
  (at level 100, right associativity) : io_scope.
Notation "' pat <- m ;; k" :=
  (io_bind m (fun x => match x with pat => k end))
  (at level 100, pat pattern, m at next level, right associativity) : io_scope.

(** A name or a list display evaluated inside a callable. *)
Definition lift {A} (r : result A) : io A := fun tr => (r, tr).

Definition run_io {A} (m : io A) : result A * list event := m [].

(** ** Operators and DAGs *)

Inductive operator_class : Type :=
| FreeSpaceSensor
| BashOperator
| BashPipelineOperator
| PreparePipelineOperator
| PythonPipelineOperator
| SpmPipelineOperator
| TriggerDagRunOperator.

(** An operator instance: its class, its [task_id], and the remaining
    keyword arguments of the constructor call ([dag=dag] apart, which is the
    DAG the instance is recorded in). *)
Record operator : Type := Operator {
  op_class : operator_class;
  task_id : string;
  op_kwargs : kwargs
}.

(** A DAG: the constructor arguments, the operators instantiated with
    [dag=dag] in the order of instantiation, and the [set_upstream] calls as
    pairs (upstream task id, downstream task id) in the order they are made. *)
Record DAG : Type := Dag {
  dag_id : string;
  dag_kwargs : kwargs;
  tasks : list operator;
  links : list (string * string)
}.

Definition dagM (A : Type) : Type := DAG -> A * DAG.

Definition ret {A} (a : A) : dagM A := fun d => (a, d).

Definition bind {A B} (m : dagM A) (k : A -> dagM B) : dagM B :=
  fun d => let (a, d') := m d in k a d'.

Declare Scope dag_scope.
Delimit Scope dag_scope with dag.
Notation "x <- m ;; k" := (bind m (fun x => k))
  (at level 100, m at next level, right associativity) : dag_scope.
Notation "m ;; k" := (bind m (fun _ => k))
  (at level 100, right associativity) : dag_scope.
Notation "' pat <- m ;; k" := (bind m (fun x => match x with pat => k end))
  (at level 100, pat pattern, m at next level, right associativity) : dag_scope.

(** [Cls(task_id=..., ..., dag=dag)] *)
Definition instantiate (cls : operator_class) (id : string) (kw : kwargs)
  : dagM operator :=
  fun d =>
    let op := Operator cls id kw in
    (op, Dag (dag_id d) (dag_kwargs d) ((tasks d ++ [op])%list) (links d)).

(** [t.set_upstream(up)] *)
Definition set_upstream (t up : operator) : dagM unit :=
  fun d =>
    (tt, Dag (dag_id d) (dag_kwargs d) (tasks d)
             ((links d ++ [(task_id up, task_id t)])%list)).

(** [DAG(dag_id=..., ...)]: a DAG with nothing declared in it yet. *)
Definition new_dag (id : string) (kw : kwargs) : DAG := Dag id kw [] [].

(** *** Reading a DAG *)

Definition task_ids (d : DAG) : list string := map task_id (tasks d).

Definition find_task (d : DAG) (id : string) : option operator :=
  find (fun o => String.eqb (task_id o) id) (tasks d).

(** The keyword argument [key] of task [id]; [None] when the task is not
    declared or was not given that argument. *)
Definition task_kwarg (d : DAG) (id key : string) : option pyval :=
  match find_task d id with
  | Some o => lookup key (op_kwargs o)
  | None => None
  end.

Definition task_class (d : DAG) (id : string) : option operator_class :=
  option_map op_class (find_task d id).

Definition link_eqb (a b : string * string) : bool :=
  String.eqb (fst a) (fst b) && String.eqb (snd a) (snd b).

(** The entry [key] of the [default_args] dictionary the DAG was built
    with. *)
Definition default_arg (d : DAG) (key : string) : option pyval :=
  match lookup "default_args" (dag_kwargs d) with
  | Some (PyDict entries) => lookup key entries
  | _ => None
  end.

(** [has_link d up down]: [down.set_upstream(up)] was called. *)
Definition has_link (d : DAG) (up down : string) : bool :=
  existsb (link_eqb (up, down)) (links d).

Definition has_task (d : DAG) (id : string) : bool :=
  existsb (String.eqb id) (task_ids d).

(** [up] is upstream of [down] through one or more links. *)
Inductive upstream_of (d : DAG) : string -> string -> Prop :=
| upstream_direct up down :
    has_link d up down = true -> upstream_of d up down
| upstream_step up mid down :
    has_link d up mid = true -> upstream_of d mid down ->
    upstream_of d up down.

(** ** [mri_pipelines/pre_process_dicom.py] *)

Module Pipelines.

Definition this_module : string := "mri_pipelines.pre_process_dicom".

(** The parameters of [pre_process_dicom_dag].  The four switches are
    tested for truth only; the other parameters are passed on as they are. *)
Record parameters : Type := Parameters {
  dataset : string;
  email_errors_to : pyval;
  max_active_runs : pyval;
  misc_library_path : pyval;
  min_free_space_local_folder : pyval;
  dicom_local_folder : pyval;
  copy_dicom_to_local : bool;
  dicom_organizer : bool;
  dicom_organizer_spm_function : pyval;
  dicom_organizer_pipeline_path : pyval;
  dicom_organizer_local_folder : pyval;
  dicom_organizer_data_structure : pyval;
  dicom_to_nifti_spm_function : pyval;
  dicom_to_nifti_pipeline_path : pyval;
  dicom_to_nifti_local_folder : pyval;
  dicom_to_nifti_server_folder : pyval;
  mpm_maps : bool;
  mpm_maps_spm_function : pyval;
  mpm_maps_pipeline_path : pyval;
  mpm_maps_local_folder : pyval;
  mpm_maps_server_folder : pyval;
  neuro_morphometric_atlas : bool;
  neuro_morphometric_atlas_spm_function : pyval;
  neuro_morphometric_atlas_pipeline_path : pyval;
  neuro_morphometric_atlas_local_folder : pyval;
  neuro_morphometric_atlas_server_folder : pyval
}.

(** The call that gives only the six required arguments: every optional
    parameter takes the default of the [def] line. *)
Definition with_defaults
  (dataset : string)
  (email_errors_to max_active_runs misc_library_path
   min_free_space_local_folder dicom_local_folder : pyval) : parameters :=
  {| dataset := dataset;
     email_errors_to := email_errors_to;
     max_active_runs := max_active_runs;
     misc_library_path := misc_library_path;
     min_free_space_local_folder := min_free_space_local_folder;
     dicom_local_folder := dicom_local_folder;
     copy_dicom_to_local := true;
     dicom_organizer := false;
     dicom_organizer_spm_function := PyStr "dicomOrganizer";
     dicom_organizer_pipeline_path := PyNone;
     dicom_organizer_local_folder := PyNone;
     dicom_organizer_data_structure :=
       PyStr "PatientID:StudyID:ProtocolName:SeriesNumber";
     dicom_to_nifti_spm_function := PyStr "DCM2NII_LREN";
     dicom_to_nifti_pipeline_path := PyNone;
     dicom_to_nifti_local_folder := PyNone;
     dicom_to_nifti_server_folder := PyNone;
     mpm_maps := true;
     mpm_maps_spm_function := PyStr "Preproc_mpm_maps";
     mpm_maps_pipeline_path := PyNone;
     mpm_maps_local_folder := PyNone;
     mpm_maps_server_folder := PyNone;
     neuro_morphometric_atlas := true;
     neuro_morphometric_atlas_spm_function :=
       PyStr "NeuroMorphometric_pipeline";
     neuro_morphometric_atlas_pipeline_path := PyNone;
     neuro_morphometric_atlas_local_folder := PyNone;
     neuro_morphometric_atlas_server_folder := PyNone |}.

(** The names bound at the top level of the module: its imports and its one
    [def]. *)
Definition module_globals : kwargs :=
  [ ("logging", PyObject "module logging");
    ("os", PyObject "module os");
    ("datetime", PyObject "class datetime.datetime");
    ("timedelta", PyObject "class datetime.timedelta");
    ("dedent", PyObject "function textwrap.dedent");
    ("DAG", PyObject "class airflow.DAG");
    ("BashOperator", PyObject "class airflow.operators.BashOperator");
    ("TriggerDagRunOperator",
       PyObject "class airflow.operators.TriggerDagRunOperator");
    ("SpmPipelineOperator",
       PyObject "class airflow_spm.operators.SpmPipelineOperator");
    ("FreeSpaceSensor",
       PyObject "class airflow_freespace.operators.FreeSpaceSensor");
    ("PreparePipelineOperator",
       PyObject "class airflow_pipeline.operators.PreparePipelineOperator");
    ("PythonPipelineOperator",
       PyObject "class airflow_pipeline.operators.PythonPipelineOperator");
    ("pipeline_trigger",
       PyObject "function airflow_pipeline.pipelines.pipeline_trigger");
    ("configuration", PyObject "module airflow.configuration");
    ("dicom_import", PyObject "module mri_meta_extract.dicom_import");
    ("nifti_import", PyObject "module mri_meta_extract.nifti_import");
    ("pre_process_dicom_dag", PyFunc this_module "pre_process_dicom_dag") ].

(** The parameter names of [pre_process_dicom_dag], in the order of the
    [def] line, with the values of the call. *)
Definition parameter_scope (p : parameters) : kwargs :=
  [ ("dataset", PyStr (dataset p));
    ("email_errors_to", email_errors_to p);
    ("max_active_runs", max_active_runs p);
    ("misc_library_path", misc_library_path p);
    ("min_free_space_local_folder", min_free_space_local_folder p);
    ("dicom_local_folder", dicom_local_folder p);
    ("copy_dicom_to_local", PyBool (copy_dicom_to_local p));
    ("dicom_organizer", PyBool (dicom_organizer p));
    ("dicom_organizer_spm_function", dicom_organizer_spm_function p);
    ("dicom_organizer_pipeline_path", dicom_organizer_pipeline_path p);
    ("dicom_organizer_local_folder", dicom_organizer_local_folder p);
    ("dicom_organizer_data_structure", dicom_organizer_data_structure p);
    ("dicom_to_nifti_spm_function", dicom_to_nifti_spm_function p);
    ("dicom_to_nifti_pipeline_path", dicom_to_nifti_pipeline_path p);
    ("dicom_to_nifti_local_folder", dicom_to_nifti_local_folder p);
    ("dicom_to_nifti_server_folder", dicom_to_nifti_server_folder p);
    ("mpm_maps", PyBool (mpm_maps p));
    ("mpm_maps_spm_function", mpm_maps_spm_function p);
    ("mpm_maps_pipeline_path", mpm_maps_pipeline_path p);
    ("mpm_maps_local_folder", mpm_maps_local_folder p);
    ("mpm_maps_server_folder", mpm_maps_server_folder p);
    ("neuro_morphometric_atlas", PyBool (neuro_morphometric_atlas p));
    ("neuro_morphometric_atlas_spm_function",
       neuro_morphometric_atlas_spm_function p);
    ("neuro_morphometric_atlas_pipeline_path",
       neuro_morphometric_atlas_pipeline_path p);
    ("neuro_morphometric_atlas_local_folder",
       neuro_morphometric_atlas_local_folder p);
    ("neuro_morphometric_atlas_server_folder",
       neuro_morphometric_atlas_server_folder p) ].

(** The names assigned in the body of [pre_process_dicom_dag] that are not
    parameters: its nested functions and its local variables, in order of
    first assignment.  (The parameter [copy_dicom_to_local] is assigned
    again in the body; no nested function reads it.) *)
Definition local_names : list string :=
  [ "extract_dicom_info_fn"; "dicom_organizer_arguments_fn";
    "dicom_to_nifti_arguments_fn"; "neuro_morphometric_atlas_arguments_fn";
    "mpm_maps_arguments_fn"; "extract_nifti_info_fn";
    "DAG_NAME"; "default_args"; "dag"; "check_free_space";
    "upstream"; "upstream_id"; "copy_dicom_to_local_cmd";
    "prepare_pipeline"; "dicom_organizer_pipeline";
    "extract_dicom_info"; "dicom_to_nifti_pipeline";
    "cleanup_local_dicom_cmd"; "cleanup_local_dicom"; "extract_nifti_info";
    "notify_success"; "mpm_maps_pipeline"; "extract_nifti_mpm_info";
    "neuro_morphometric_atlas_pipeline"; "extract_nifti_atlas_info" ].

(** The scope of [pre_process_dicom_dag] as its nested functions see it:
    the parameters with the values of the call, then the local variables
    (the objects they hold are not looked into). *)
Definition enclosing_scope (p : parameters) : kwargs :=
  (parameter_scope p ++ map (fun n => (n, PyObject n)) local_names)%list.

(** The scopes of a nested function with local variables [locals]. *)
Definition scopes (p : parameters) (locals : kwargs) : list kwargs :=
  [locals; enclosing_scope p; module_globals].

Section Callables.
Context {E : Externals}.
Variable p : parameters.

(** The functions used in the DAG.  The extraction functions hand [folder]
    on as it is; the argument builders evaluate [folder + '/..'], for any
    value of [folder].  The other arguments are passed on untouched; [kw]
    stands for [**kwargs]. *)

Definition extract_dicom_info_fn
  (folder : string) (session_id : pyval) (kw : kwargs) : io pyval :=
  let locals := [("folder", PyStr folder); ("session_id", session_id);
                 ("kwargs", PyDict kw)] in
  (lift (load_name (scopes p locals) "logging") ;;
   call "logging.info"
        [PyStr (percent_format "folder %s, session_id %s"
                               [PyStr folder; session_id])]
        (Ok tt) ;;
   lift (load_name (scopes p locals) "dicom_import") ;;
   '(participant_id, scan_date) <-
      call "dicom_import.visit_info" [PyStr folder] (visit_info folder) ;;
   lift (load_name (scopes p locals) "dicom_import") ;;
   call "dicom_import.dicom2db" [PyStr folder] (dicom2db folder) ;;
   io_ret (PyDict [("participant_id", participant_id);
                   ("scan_date", scan_date)]))%io.

Definition dicom_organizer_arguments_fn
  (folder session_id : pyval) (kw : kwargs) : result pyval :=
  let locals := [("folder", folder); ("session_id", session_id);
                 ("kwargs", PyDict kw)] in
  rbind (load_name (scopes p locals) "os") (fun _ =>
  rbind (parent_folder folder) (fun parent_data_folder =>
  let locals := (locals ++ [("parent_data_folder", parent_data_folder)])%list in
  rbind (load_names (scopes p locals)
           ["parent_data_folder";
            "dicom_organizer_local_folder";
            "session_id";
            "dicom_organizer_data_structure";
            "protocols_file"])
        (fun items => Ok (PyList items)))).

Definition dicom_to_nifti_arguments_fn
  (folder session_id participant_id scan_date : pyval)
  (kw : kwargs) : result pyval :=
  let locals := [("folder", folder); ("session_id", session_id);
                 ("participant_id", participant_id);
                 ("scan_date", scan_date); ("kwargs", PyDict kw)] in
  rbind (load_name (scopes p locals) "os") (fun _ =>
  rbind (parent_folder folder) (fun parent_data_folder =>
  let locals := (locals ++ [("parent_data_folder", parent_data_folder)])%list in
  rbind (load_names (scopes p locals)
           ["parent_data_folder";
            "session_id";
            "dicom_to_nifti_local_folder";
            "dicom_to_nifti_server_folder";
            "protocols_file"])
        (fun items => Ok (PyList items)))).

Definition neuro_morphometric_atlas_arguments_fn
  (folder session_id participant_id scan_date : pyval)
  (kw : kwargs) : result pyval :=
  let locals := [("folder", folder); ("session_id", session_id);
                 ("participant_id", participant_id);
                 ("scan_date", scan_date); ("kwargs", PyDict kw)] in
  rbind (load_name (scopes p locals) "os") (fun _ =>
  rbind (parent_folder folder) (fun parent_data_folder =>
  let table_format := PyStr "csv" in
  let locals := (locals ++ [("parent_data_folder", parent_data_folder);
                            ("table_format", table_format)])%list in
  rbind (load_names (scopes p locals)
           ["session_id";
            "parent_data_folder";
            "neuro_morphometric_atlas_local_folder";
            "neuro_morphometric_atlas_server_folder";
            "protocols_file";
            "table_format"])
        (fun items => Ok (PyList items)))).

(** [pipeline_params_config_file] is a keyword parameter with a default;
    [None] here means the caller does not give it. *)
Definition mpm_maps_arguments_fn
  (folder session_id participant_id scan_date : pyval)
  (pipeline_params_config_file : option pyval)
  (kw : kwargs) : result pyval :=
  let pipeline_params_config_file :=
    match pipeline_params_config_file with
    | Some v => v
    | None => PyStr "Preproc_mpm_maps_pipeline_config.txt"
    end in
  let locals := [("folder", folder); ("session_id", session_id);
                 ("participant_id", participant_id);
                 ("scan_date", scan_date);
                 ("pipeline_params_config_file", pipeline_params_config_file);
                 ("kwargs", PyDict kw)] in
  rbind (load_name (scopes p locals) "os") (fun _ =>
  rbind (parent_folder folder) (fun parent_data_folder =>
  let locals := (locals ++ [("parent_data_folder", parent_data_folder)])%list in
  rbind (load_names (scopes p locals)
           ["parent_data_folder";
            "session_id";
            "mpm_maps_local_folder";
            "protocols_file";
            "pipeline_params_config_file";
            "mpm_maps_server_folder"])
        (fun items => Ok (PyList items)))).

Definition extract_nifti_info_fn
  (folder : string) (session_id participant_id scan_date : pyval)
  (kw : kwargs) : io pyval :=
  let locals := [("folder", PyStr folder); ("session_id", session_id);
                 ("participant_id", participant_id);
                 ("scan_date", scan_date); ("kwargs", PyDict kw)] in
  (lift (load_name (scopes p locals) "logging") ;;
   call "logging.info"
        [PyStr (percent_format "NIFTI extract: session_id=%s, input_folder=%s"
                               [session_id; PyStr folder])]
        (Ok tt) ;;
   lift (load_name (scopes p locals) "nifti_import") ;;
   call "nifti_import.nifti2db" [PyStr folder; participant_id; scan_date]
        (nifti2db folder participant_id scan_date) ;;
   io_ret (PyStr "ok"))%io.

End Callables.

(** [s.replace(" ", "_")] *)
Fixpoint replace_space (s : string) : string :=
  match s with
  | EmptyString => EmptyString
  | String c rest =>
      String (if Ascii.eqb c " "%char then "_"%char else c) (replace_space rest)
  end.

Section Dag.
Context {E : Externals}.
Variable p : parameters.

(** The body of [pre_process_dicom_dag] from [check_free_space = ...] on.
    The text of a shell template is not reproduced ([PyTemplate] names the
    variable that holds it) and the [doc_md] texts are left out.
    [upstream] and [upstream_id] are the two local variables the Python
    code reassigns as it goes. *)
Definition declare_tasks : dagM unit :=
  (check_free_space <-
     instantiate FreeSpaceSensor "check_free_space"
       [ ("path", dicom_local_folder p);
         ("free_disk_threshold", min_free_space_local_folder p);
         ("retry_delay", timedelta 1 0 0);
         ("retries", PyInt (24 * 7));
         ("pool", PyStr "remote_file_copy") ] ;;
   let upstream := check_free_space in
   let upstream_id := "check_free_space" in

   '(upstream, upstream_id) <-
     (if copy_dicom_to_local p then
        copy_dicom_to_local <-
          instantiate BashOperator "copy_dicom_to_local"
            [ ("bash_command",
                 PyTemplate this_module "copy_dicom_to_local_cmd");
              ("params",
                 PyDict [ ("local_output_folder", dicom_local_folder p);
                          ("min_free_space_local_folder",
                             min_free_space_local_folder p) ]);
              ("pool", PyStr "remote_file_copy");
              ("priority_weight", PyInt 10);
              ("execution_timeout", timedelta 3 0 0) ] ;;
        set_upstream copy_dicom_to_local upstream ;;
        ret (copy_dicom_to_local, "copy_dicom_to_local")
      else ret (upstream, upstream_id)) ;;

   prepare_pipeline <-
     instantiate PreparePipelineOperator "prepare_pipeline"
       [ ("initial_root_folder", dicom_local_folder p);
         ("priority_weight", PyInt 12);
         ("execution_timeout", timedelta 0 10 0) ] ;;
   set_upstream prepare_pipeline upstream ;;
   let upstream := prepare_pipeline in
   let upstream_id := "prepare_pipeline" in

   '(upstream, upstream_id) <-
     (if dicom_organizer p then
        dicom_organizer_pipeline <-
          instantiate SpmPipelineOperator "dicom_organizer_pipeline"
            [ ("spm_function", dicom_organizer_spm_function p);
              ("spm_arguments_callable",
                 PyFunc this_module "dicom_organizer_arguments_fn");
              ("matlab_paths",
                 PyList [misc_library_path p; dicom_organizer_pipeline_path p]);
              ("output_folder_callable",
                 output_folder_lambda (dicom_organizer_local_folder p));
              ("pool", PyStr "io_intensive");
              ("parent_task", PyStr upstream_id);
              ("priority_weight", PyInt 20);
              ("execution_timeout", timedelta 24 0 0);
              ("on_skip_trigger_dag_id", PyStr "mri_notify_skipped_processing");
              ("on_failure_trigger_dag_id",
                 PyStr "mri_notify_failed_processing") ] ;;
        set_upstream dicom_organizer_pipeline upstream ;;
        ret (dicom_organizer_pipeline, "dicom_organizer_pipeline")
      else ret (upstream, upstream_id)) ;;

   extract_dicom_info <-
     instantiate PythonPipelineOperator "extract_dicom_info"
       [ ("python_callable", PyFunc this_module "extract_dicom_info_fn");
         ("parent_task", PyStr upstream_id);
         ("pool", PyStr "io_intensive");
         ("priority_weight", PyInt 15);
         ("execution_timeout", timedelta 6 0 0) ] ;;
   set_upstream extract_dicom_info upstream ;;
   let upstream := extract_dicom_info in
   let upstream_id := "extract_dicom_info" in

   dicom_to_nifti_pipeline <-
     instantiate SpmPipelineOperator "dicom_to_nifti_pipeline"
       [ ("spm_function", dicom_to_nifti_spm_function p);
         ("spm_arguments_callable",
            PyFunc this_module "dicom_to_nifti_arguments_fn");
         ("matlab_paths",
            PyList [misc_library_path p; dicom_to_nifti_pipeline_path p]);
         ("output_folder_callable",
            output_folder_lambda (dicom_to_nifti_local_folder p));
         ("pool", PyStr "io_intensive");
         ("parent_task", PyStr upstream_id);
         ("priority_weight", PyInt 20);
         ("execution_timeout", timedelta 24 0 0);
         ("on_skip_trigger_dag_id", PyStr "mri_notify_skipped_processing");
         ("on_failure_trigger_dag_id", PyStr "mri_notify_failed_processing") ] ;;
   set_upstream dicom_to_nifti_pipeline upstream ;;
   let upstream := dicom_to_nifti_pipeline in
   let upstream_id := "dicom_to_nifti_pipeline" in

   cleanup_local_dicom <-
     instantiate BashOperator "cleanup_local_dicom"
       [ ("bash_command", PyTemplate this_module "cleanup_local_dicom_cmd");
         ("params", PyDict [("local_folder", dicom_local_folder p)]);
         ("priority_weight", PyInt 25);
         ("execution_timeout", timedelta 1 0 0) ] ;;
   set_upstream cleanup_local_dicom upstream ;;

   extract_nifti_info <-
     instantiate PythonPipelineOperator "extract_nifti_info"
       [ ("python_callable", PyFunc this_module "extract_nifti_info_fn");
         ("parent_task", PyStr upstream_id);
         ("pool", PyStr "io_intensive");
         ("priority_weight", PyInt 21);
         ("execution_timeout", timedelta 3 0 0) ] ;;
   set_upstream extract_nifti_info dicom_to_nifti_pipeline ;;

   notify_success <-
     instantiate TriggerDagRunOperator "notify_success"
       [ ("trigger_dag_id", PyStr "mri_notify_successful_processing");
         ("python_callable", pipeline_trigger "extract_nifti_atlas_info");
         ("priority_weight", PyInt 50) ] ;;
   set_upstream notify_success extract_nifti_info ;;

   '(upstream, upstream_id) <-
     (if mpm_maps p then
        mpm_maps_pipeline <-
          instantiate SpmPipelineOperator "mpm_maps_pipeline"
            [ ("spm_function", mpm_maps_spm_function p);
              ("spm_arguments_callable",
                 PyFunc this_module "mpm_maps_arguments_fn");
              ("matlab_paths",
                 PyList [misc_library_path p; mpm_maps_pipeline_path p]);
              ("output_folder_callable",
                 output_folder_lambda (mpm_maps_local_folder p));
              ("priority_weight", PyInt 30);
              ("execution_timeout", timedelta 24 0 0);
              ("pool", PyStr "image_preprocessing");
              ("parent_task", PyStr upstream_id);
              ("on_skip_trigger_dag_id", PyStr "mri_notify_skipped_processing");
              ("on_failure_trigger_dag_id",
                 PyStr "mri_notify_failed_processing") ] ;;
        set_upstream mpm_maps_pipeline upstream ;;
        let upstream := mpm_maps_pipeline in
        let upstream_id := "mpm_maps_pipeline" in
        extract_nifti_mpm_info <-
          instantiate PythonPipelineOperator "extract_nifti_mpm_info"
            [ ("python_callable", PyFunc this_module "extract_nifti_info_fn");
              ("parent_task", PyStr upstream_id);
              ("pool", PyStr "io_intensive");
              ("priority_weight", PyInt 35);
              ("execution_timeout", timedelta 3 0 0) ] ;;
        set_upstream extract_nifti_mpm_info upstream ;;
        set_upstream notify_success extract_nifti_mpm_info ;;
        ret (upstream, upstream_id)
      else ret (upstream, upstream_id)) ;;

   (if neuro_morphometric_atlas p then
      neuro_morphometric_atlas_pipeline <-
        instantiate SpmPipelineOperator "neuro_morphometric_atlas_pipeline"
          [ ("spm_function", neuro_morphometric_atlas_spm_function p);
            ("spm_arguments_callable",
               PyFunc this_module "neuro_morphometric_atlas_arguments_fn");
            ("matlab_paths",
               PyList [misc_library_path p;
                       neuro_morphometric_atlas_pipeline_path p]);
            ("output_folder_callable",
               output_folder_lambda (neuro_morphometric_atlas_local_folder p));
            ("pool", PyStr "image_preprocessing");
            ("parent_task", PyStr upstream_id);
            ("priority_weight", PyInt 40);
            ("execution_timeout", timedelta 24 0 0);
            ("on_skip_trigger_dag_id", PyStr "mri_notify_skipped_processing");
            ("on_failure_trigger_dag_id",
               PyStr "mri_notify_failed_processing") ] ;;
      set_upstream neuro_morphometric_atlas_pipeline upstream ;;
      extract_nifti_atlas_info <-
        instantiate PythonPipelineOperator "extract_nifti_atlas_info"
          [ ("python_callable", PyFunc this_module "extract_nifti_info_fn");
            ("parent_task", PyStr "neuro_morphometric_atlas_pipeline");
            ("pool", PyStr "io_intensive");
            ("priority_weight", PyInt 45);
            ("execution_timeout", timedelta 3 0 0) ] ;;
      set_upstream extract_nifti_atlas_info neuro_morphometric_atlas_pipeline ;;
      set_upstream notify_success extract_nifti_atlas_info
    else ret tt))%dag.

(** [pre_process_dicom_dag]: the DAG object the function constructs.  (The
    Python function has no [return]; the DAG is what its body builds.) *)
Definition pre_process_dicom_dag : DAG :=
  let DAG_NAME :=
    replace_space (str_lower (dataset p)) ++ "_mri_pre_process_dicom" in
  let default_args :=
    [ ("owner", PyStr "airflow");
      ("depends_on_past", PyBool false);
      ("start_date", datetime_now);
      ("retries", PyInt 1);
      ("retry_delay", timedelta 0 0 120);
      ("email", email_errors_to p);
      ("email_on_failure", PyBool true);
      ("email_on_retry", PyBool true) ] in
  let dag :=
    new_dag DAG_NAME
      [ ("default_args", PyDict default_args);
        ("schedule_interval", PyNone);
        ("max_active_runs", max_active_runs p) ] in
  snd (declare_tasks dag).

End Dag.

End Pipelines.

(** ** [mri_pre_process_dicom.py] *)

Module Hardcoded.

Definition this_module : string := "mri_pre_process_dicom".

Section Module_.
Context {E : Externals}.

(** *** constants *)

Definition DAG_NAME : string := "mri_pre_process_dicom".

Definition pipelines_path : string := configuration_get "mri" "PIPELINES_PATH".
Definition protocols_file : string := configuration_get "mri" "PROTOCOLS_FILE".
Definition min_free_space_local_folder : pyval :=
  py_float (configuration_get "mri" "MIN_FREE_SPACE_LOCAL_FOLDER").
Definition dicom_local_folder : string :=
  configuration_get "mri" "DICOM_LOCAL_FOLDER".
Definition dicom_to_nifti_local_folder : string :=
  configuration_get "mri" "NIFTI_LOCAL_FOLDER".
Definition dicom_to_nifti_server_folder : string :=
  configuration_get "mri" "NIFTI_SERVER_FOLDER".
Definition dicom_to_nifti_pipeline_path : string :=
  pipelines_path ++ "/Nifti_Conversion_Pipeline".
Definition neuro_morphometric_atlas_local_folder : string :=
  configuration_get "mri" "NEURO_MORPHOMETRIC_ATLAS_LOCAL_FOLDER".
Definition neuro_morphometric_atlas_server_folder : string :=
  configuration_get "mri" "NEURO_MORPHOMETRIC_ATLAS_SERVER_FOLDER".
Definition neuro_morphometric_atlas_pipeline_path : string :=
  pipelines_path ++ "/NeuroMorphometric_Pipeline/NeuroMorphometric_tbx/label".
Definition mpm_maps_local_folder : string :=
  configuration_get "mri" "MPM_MAPS_LOCAL_FOLDER".
Definition mpm_maps_server_folder : string :=
  configuration_get "mri" "MPM_MAPS_SERVER_FOLDER".
Definition mpm_maps_pipeline_path : string := pipelines_path ++ "/MPMs_Pipeline".
Definition misc_library_path : string :=
  pipelines_path ++ "/../Miscellaneous&Others".

(** The names bound at the top level of the module once it is loaded: the
    imports, the constants with their values, the functions, and the DAG
    objects (not looked into). *)
Definition module_globals : kwargs :=
  [ ("logging", PyObject "module logging");
    ("os", PyObject "module os");
    ("datetime", PyObject "class datetime.datetime");
    ("timedelta", PyObject "class datetime.timedelta");
    ("partial", PyObject "function functools.partial");
    ("DAG", PyObject "class airflow.DAG");
    ("BashOperator", PyObject "class airflow.operators.bash_operator.BashOperator");
    ("SpmPipelineOperator",
       PyObject "class airflow_spm.operators.SpmPipelineOperator");
    ("FreeSpaceSensor",
       PyObject "class airflow_freespace.operators.FreeSpaceSensor");
    ("PreparePipelineOperator",
       PyObject "class airflow_pipeline.operators.PreparePipelineOperator");
    ("PythonPipelineOperator",
       PyObject "class airflow_pipeline.operators.PythonPipelineOperator");
    ("configuration", PyObject "module airflow.configuration");
    ("dicom_import", PyObject "module util.dicom_import");
    ("nifti_import", PyObject "module util.nifti_import");
    ("DAG_NAME", PyStr DAG_NAME);
    ("pipelines_path", PyStr pipelines_path);
    ("protocols_file", PyStr protocols_file);
    ("min_free_space_local_folder", min_free_space_local_folder);
    ("dicom_local_folder", PyStr dicom_local_folder);
    ("dicom_to_nifti_local_folder", PyStr dicom_to_nifti_local_folder);
    ("dicom_to_nifti_server_folder", PyStr dicom_to_nifti_server_folder);
    ("dicom_to_nifti_pipeline_path", PyStr dicom_to_nifti_pipeline_path);
    ("neuro_morphometric_atlas_local_folder",
       PyStr neuro_morphometric_atlas_local_folder);
    ("neuro_morphometric_atlas_server_folder",
       PyStr neuro_morphometric_atlas_server_folder);
    ("neuro_morphometric_atlas_pipeline_path",
       PyStr neuro_morphometric_atlas_pipeline_path);
    ("mpm_maps_local_folder", PyStr mpm_maps_local_folder);
    ("mpm_maps_server_folder", PyStr mpm_maps_server_folder);
    ("mpm_maps_pipeline_path", PyStr mpm_maps_pipeline_path);
    ("misc_library_path", PyStr misc_library_path);
    ("extract_dicom_info_fn", PyFunc this_module "extract_dicom_info_fn");
    ("dicom_to_nifti_arguments_fn",
       PyFunc this_module "dicom_to_nifti_arguments_fn");
    ("neuro_morphometric_atlas_arguments_fn",
       PyFunc this_module "neuro_morphometric_atlas_arguments_fn");
    ("mpm_maps_arguments_fn", PyFunc this_module "mpm_maps_arguments_fn");
    ("extract_nifti_info_fn", PyFunc this_module "extract_nifti_info_fn");
    ("default_args", PyObject "default_args");
    ("dag", PyObject "dag");
    ("check_free_space", PyObject "check_free_space");
    ("copy_dicom_to_local_cmd",
       PyTemplate this_module "copy_dicom_to_local_cmd");
    ("copy_dicom_to_local", PyObject "copy_dicom_to_local");
    ("prepare_pipeline", PyObject "prepare_pipeline");
    ("extract_dicom_info", PyObject "extract_dicom_info");
    ("dicom_to_nifti_pipeline", PyObject "dicom_to_nifti_pipeline");
    ("cleanup_local_dicom_cmd",
       PyTemplate this_module "cleanup_local_dicom_cmd");
    ("cleanup_local_dicom", PyObject "cleanup_local_dicom");
    ("extract_nifti_info", PyObject "extract_nifti_info");
    ("mpm_maps_pipeline", PyObject "mpm_maps_pipeline");
    ("extract_nifti_mpm_info", PyObject "extract_nifti_mpm_info");
    ("neuro_morphometric_atlas_pipeline",
       PyObject "neuro_morphometric_atlas_pipeline");
    ("extract_nifti_atlas_info", PyObject "extract_nifti_atlas_info") ].

(** The scopes of a module-level function with local variables [locals]. *)
Definition scopes (locals : kwargs) : list kwargs := [locals; module_globals].

(** *** functions *)

Definition extract_dicom_info_fn
  (folder : string) (session_id : pyval) (kw : kwargs) : io pyval :=
  let locals := [("folder", PyStr folder); ("session_id", session_id);
                 ("kwargs", PyDict kw)] in
  (lift (load_name (scopes locals) "logging") ;;
   call "logging.info"
        [PyStr (percent_format "folder %s, session_id %s"
                               [PyStr folder; session_id])]
        (Ok tt) ;;
   lift (load_name (scopes locals) "dicom_import") ;;
   '(participant_id, scan_date) <-
      call "dicom_import.visit_info" [PyStr folder] (visit_info folder) ;;
   lift (load_name (scopes locals) "dicom_import") ;;
   call "dicom_import.dicom2db" [PyStr folder] (dicom2db folder) ;;
   io_ret (PyDict [("participant_id", participant_id);
                   ("scan_date", scan_date)]))%io.

Definition dicom_to_nifti_arguments_fn
  (folder session_id participant_id scan_date : pyval)
  (kw : kwargs) : result pyval :=
  let locals := [("folder", folder); ("session_id", session_id);
                 ("participant_id", participant_id);
                 ("scan_date", scan_date); ("kwargs", PyDict kw)] in
  rbind (load_name (scopes locals) "os") (fun _ =>
  rbind (parent_folder folder) (fun parent_data_folder =>
  let locals := (locals ++ [("parent_data_folder", parent_data_folder)])%list in
  rbind (load_names (scopes locals)
           ["parent_data_folder";
            "session_id";
            "dicom_to_nifti_local_folder";
            "dicom_to_nifti_server_folder";
            "protocols_file"])
        (fun items => Ok (PyList items)))).

Definition neuro_morphometric_atlas_arguments_fn
  (folder session_id participant_id scan_date : pyval)
  (kw : kwargs) : result pyval :=
  let locals := [("folder", folder); ("session_id", session_id);
                 ("participant_id", participant_id);
                 ("scan_date", scan_date); ("kwargs", PyDict kw)] in
  rbind (load_name (scopes locals) "os") (fun _ =>
  rbind (parent_folder folder) (fun parent_data_folder =>
  let table_format := PyStr "csv" in
  let locals := (locals ++ [("parent_data_folder", parent_data_folder);
                            ("table_format", table_format)])%list in
  rbind (load_names (scopes locals)
           ["session_id";
            "parent_data_folder";
            "neuro_morphometric_atlas_local_folder";
            "neuro_morphometric_atlas_server_folder";
            "protocols_file";
            "table_format"])
        (fun items => Ok (PyList items)))).

Definition mpm_maps_arguments_fn
  (folder session_id participant_id scan_date : pyval)
  (kw : kwargs) : result pyval :=
  let locals := [("folder", folder); ("session_id", session_id);
                 ("participant_id", participant_id);
                 ("scan_date", scan_date); ("kwargs", PyDict kw)] in
  rbind (load_name (scopes locals) "os") (fun _ =>
  rbind (parent_folder folder) (fun parent_data_folder =>
  let pipeline_params_config_file :=
    PyStr "Preproc_mpm_maps_pipeline_config.txt" in
  let locals := (locals ++ [("parent_data_folder", parent_data_folder);
                            ("pipeline_params_config_file",
                               pipeline_params_config_file)])%list in
  rbind (load_names (scopes locals)
           ["parent_data_folder";
            "session_id";
            "mpm_maps_local_folder";
            "protocols_file";
            "pipeline_params_config_file";
            "mpm_maps_server_folder"])
        (fun items => Ok (PyList items)))).

Definition extract_nifti_info_fn
  (folder : string) (session_id participant_id scan_date : pyval)
  (kw : kwargs) : io pyval :=
  let locals := [("folder", PyStr folder); ("session_id", session_id);
                 ("participant_id", participant_id);
                 ("scan_date", scan_date); ("kwargs", PyDict kw)] in
  (lift (load_name (scopes locals) "logging") ;;
   call "logging.info"
        [PyStr (percent_format "NIFTI extract: session_id=%s, input_folder=%s"
                               [session_id; PyStr folder])]
        (Ok tt) ;;
   lift (load_name (scopes locals) "nifti_import") ;;
   call "nifti_import.nifti2db" [PyStr folder; participant_id; scan_date]
        (nifti2db folder participant_id scan_date) ;;
   io_ret (PyStr "ok"))%io.

(** *** the DAG *)

(** The module-level statements from [check_free_space = ...] on, with the
    same conventions as in [Pipelines.declare_tasks]. *)
Definition declare_tasks : dagM unit :=
  (check_free_space <-
     instantiate FreeSpaceSensor "check_free_space"
       [ ("path", PyStr dicom_local_folder);
         ("free_disk_threshold", min_free_space_local_folder);
         ("retry_delay", timedelta 1 0 0);
         ("retries", PyInt (24 * 7));
         ("pool", PyStr "remote_file_copy") ] ;;

   copy_dicom_to_local <-
     instantiate BashOperator "copy_dicom_to_local"
       [ ("bash_command", PyTemplate this_module "copy_dicom_to_local_cmd");
         ("params",
            PyDict [ ("local_output_folder", PyStr dicom_local_folder);
                     ("min_free_space_local_folder",
                        min_free_space_local_folder) ]);
         ("pool", PyStr "remote_file_copy");
         ("priority_weight", PyInt 10);
         ("execution_timeout", timedelta 3 0 0) ] ;;
   set_upstream copy_dicom_to_local check_free_space ;;

   prepare_pipeline <-
     instantiate PreparePipelineOperator "prepare_pipeline"
       [ ("initial_root_folder", PyStr dicom_local_folder);
         ("priority_weight", PyInt 12);
         ("execution_timeout", timedelta 0 10 0) ] ;;
   set_upstream prepare_pipeline copy_dicom_to_local ;;

   extract_dicom_info <-
     instantiate PythonPipelineOperator "extract_dicom_info"
       [ ("python_callable", PyFunc this_module "extract_dicom_info_fn");
         ("parent_task", PyStr "prepare_pipeline");
         ("priority_weight", PyInt 15);
         ("execution_timeout", timedelta 6 0 0) ] ;;
   set_upstream extract_dicom_info prepare_pipeline ;;

   dicom_to_nifti_pipeline <-
     instantiate SpmPipelineOperator "dicom_to_nifti_pipeline"
       [ ("spm_function", PyStr "DCM2NII_LREN");
         ("spm_arguments_callable",
            PyFunc this_module "dicom_to_nifti_arguments_fn");
         ("matlab_paths",
            PyList [PyStr misc_library_path;
                    PyStr dicom_to_nifti_pipeline_path]);
         ("output_folder_callable",
            output_folder_lambda (PyStr dicom_to_nifti_local_folder));
         ("pool", PyStr "image_preprocessing");
         ("parent_task", PyStr "prepare_pipeline");
         ("priority_weight", PyInt 20);
         ("execution_timeout", timedelta 24 0 0) ] ;;
   set_upstream dicom_to_nifti_pipeline prepare_pipeline ;;

   cleanup_local_dicom <-
     instantiate BashOperator "cleanup_local_dicom"
       [ ("bash_command", PyTemplate this_module "cleanup_local_dicom_cmd");
         ("params", PyDict [("local_folder", PyStr dicom_local_folder)]);
         ("priority_weight", PyInt 25);
         ("execution_timeout", timedelta 1 0 0) ] ;;
   set_upstream cleanup_local_dicom dicom_to_nifti_pipeline ;;

   extract_nifti_info <-
     instantiate PythonPipelineOperator "extract_nifti_info"
       [ ("python_callable", PyFunc this_module "extract_nifti_info_fn");
         ("parent_task", PyStr "dicom_to_nifti_pipeline");
         ("priority_weight", PyInt 21);
         ("execution_timeout", timedelta 3 0 0) ] ;;
   set_upstream extract_nifti_info dicom_to_nifti_pipeline ;;

   mpm_maps_pipeline <-
     instantiate SpmPipelineOperator "mpm_maps_pipeline"
       [ ("spm_function", PyStr "Preproc_mpm_maps");
         ("spm_arguments_callable", PyFunc this_module "mpm_maps_arguments_fn");
         ("matlab_paths",
            PyList [PyStr misc_library_path; PyStr mpm_maps_pipeline_path]);
         ("output_folder_callable",
            output_folder_lambda (PyStr mpm_maps_local_folder));
         ("priority_weight", PyInt 30);
         ("execution_timeout", timedelta 3 0 0);
         ("pool", PyStr "image_preprocessing");
         ("parent_task", PyStr "dicom_to_nifti_pipeline") ] ;;
   set_upstream mpm_maps_pipeline dicom_to_nifti_pipeline ;;

   extract_nifti_mpm_info <-
     instantiate PythonPipelineOperator "extract_nifti_mpm_info"
       [ ("python_callable", PyFunc this_module "extract_nifti_info_fn");
         ("parent_task", PyStr "mpm_maps_pipeline");
         ("priority_weight", PyInt 35);
         ("execution_timeout", timedelta 3 0 0) ] ;;
   set_upstream extract_nifti_mpm_info mpm_maps_pipeline ;;

   neuro_morphometric_atlas_pipeline <-
     instantiate SpmPipelineOperator "neuro_morphometric_atlas_pipeline"
       [ ("spm_function", PyStr "NeuroMorphometric_pipeline");
         ("spm_arguments_callable",
            PyFunc this_module "neuro_morphometric_atlas_arguments_fn");
         ("matlab_paths",
            PyList [PyStr misc_library_path;
                    PyStr neuro_morphometric_atlas_pipeline_path]);
         ("output_folder_callable",
            output_folder_lambda
              (PyStr neuro_morphometric_atlas_local_folder));
         ("pool", PyStr "image_preprocessing");
         ("parent_task", PyStr "mpm_maps_pipeline");
         ("priority_weight", PyInt 40);
         ("execution_timeout", timedelta 24 0 0) ] ;;
   set_upstream neuro_morphometric_atlas_pipeline mpm_maps_pipeline ;;

   extract_nifti_atlas_info <-
     instantiate PythonPipelineOperator "extract_nifti_atlas_info"
       [ ("python_callable", PyFunc this_module "extract_nifti_info_fn");
         ("parent_task", PyStr "neuro_morphometric_atlas_pipeline");
         ("priority_weight", PyInt 45);
         ("execution_timeout", timedelta 3 0 0) ] ;;
   set_upstream extract_nifti_atlas_info neuro_morphometric_atlas_pipeline)%dag.

Definition default_args : kwargs :=
  [ ("owner", PyStr "airflow");
    ("depends_on_past", PyBool false);
    ("start_date", datetime_now);
    ("retries", PyInt 1);
    ("retry_delay", timedelta 0 0 120);
    ("email", PyStr "ludovic.claude@chuv.ch");
    ("email_on_failure", PyBool true);
    ("email_on_retry", PyBool true) ].

(** The module-level [dag] once the module is loaded. *)
Definition dag : DAG :=
  snd (declare_tasks
         (new_dag DAG_NAME
            [ ("default_args", PyDict default_args);
              ("schedule_interval", PyNone) ])).

End Module_.

End Hardcoded.

(** ** [preprocessing_steps/copy_to_local.py] *)

Module CopyToLocal.

Definition this_module : string := "preprocessing_steps.copy_to_local".

(** Modelled from the spec: the step handle [Step] of [common_steps], a
    module that is not among the sources.  The spec only says that a step
    returns a handle; the three fields are the ones this module uses: the
    handle is built positionally as [Step(task, task_id, priority_weight)]
    and read as [upstream_step.task], [.task_id] and [.priority_weight].  A
    handle without a task has [task = None]; an operator object is
    truthy. *)
Record Step : Type := mkStep {
  task : option operator;
  step_task_id : pyval;
  priority_weight : Z
}.

(** [copy_to_local_step(dag, upstream_step, min_free_space, output_folder,
    dataset_config)], run on the DAG it is given. *)
Definition copy_to_local_step
  (upstream_step : Step) (min_free_space : pyval) (output_folder : pyval)
  (dataset_config : list string) : dagM Step :=
  (copy_to_local <-
     instantiate BashPipelineOperator "copy_to_local"
       [ ("bash_command", PyTemplate this_module "copy_to_local_cmd");
         ("params", PyDict [("min_free_space", min_free_space)]);
         ("output_folder_callable", output_folder_lambda output_folder);
         ("pool", PyStr "remote_file_copy");
         ("parent_task", step_task_id upstream_step);
         ("priority_weight", PyInt (priority_weight upstream_step));
         ("execution_timeout", timedelta 3 0 0);
         ("on_failure_trigger_dag_id", PyStr "mri_notify_failed_processing");
         ("dataset_config", PyList (map PyStr dataset_config));
         ("organised_folder", PyBool false) ] ;;
   (match task upstream_step with
    | Some upstream_task => set_upstream copy_to_local upstream_task
    | None => ret tt
    end) ;;
   ret (mkStep (Some copy_to_local) (PyStr (task_id copy_to_local))
               (priority_weight upstream_step + 10)))%dag.

(** [s.split(',')]: the fields between the commas of [s], empty fields
    included; a string without a comma is its own single field. *)
Fixpoint split_commas (s : string) : list string :=
  match s with
  | EmptyString => [EmptyString]
  | String c rest =>
      if Ascii.eqb c ","%char then EmptyString :: split_commas rest
      else match split_commas rest with
           | field :: fields => String c field :: fields
           | [] => [String c EmptyString]
           end
  end.

(** The configuration store as [copy_to_local_cfg] uses it.  The store is
    process-wide state; [default_config] is a function of [common_steps],
    which is not among the sources, and is a parameter here like the calls
    into [airflow.configuration]: any of them may raise. *)
Class Configuration : Type := {
  store : Type;
  (** [common_steps.default_config(section, key, value)] *)
  default_config : string -> string -> string -> store -> result store;
  (** [configuration.get(section, key)] *)
  get : string -> string -> store -> result string;
  (** [configuration.getfloat(section, key)] *)
  getfloat : string -> string -> store -> result pyval;
  (** [str.strip] *)
  str_strip : string -> string
}.

(** [copy_to_local_cfg(dag, upstream_step, preprocessing_section,
    step_section)], run on the configuration store and the DAG it is given;
    it yields the step, the DAG and the store as the call leaves them. *)
Definition copy_to_local_cfg {C : Configuration}
  (upstream_step : Step) (preprocessing_section step_section : string)
  (cfg : store) (dag : DAG) : result (Step * DAG * store) :=
  rbind (default_config preprocessing_section "INPUT_CONFIG" "" cfg)
    (fun cfg =>
  rbind (get preprocessing_section "INPUT_CONFIG" cfg) (fun input_config =>
  let dataset_config := map str_strip (split_commas input_config) in
  rbind (getfloat preprocessing_section "MIN_FREE_SPACE" cfg)
    (fun min_free_space =>
  rbind (get step_section "OUTPUT_FOLDER" cfg) (fun output_folder =>
  let (step, dag) :=
    copy_to_local_step upstream_step min_free_space (PyStr output_folder)
      dataset_config dag in
  Ok (step, dag, cfg))))).

End CopyToLocal.

(** ** Calling the [output_folder_callable] lambdas *)

(** The body [_ + '/' + session_id] of the lambdas, [_] being the folder
    the lambda closes over. *)
Definition output_folder_body (folder session_id : pyval) : evaluation :=
  match py_add folder (PyStr "/") with
  | Value prefix => py_add prefix session_id
  | other => other
  end.

(** [callable(session_id)] for a value built by [output_folder_lambda]. *)
Definition call_output_folder_callable (callable session_id : pyval)
  : evaluation :=
  match callable with
  | PyLambda source [folder] =>
      if String.eqb source
           "lambda session_id, **kwargs: _ + '/' + session_id"
      then output_folder_body folder session_id
      else NotModelled
  | _ => NotModelled
  end.

(** ** Vocabulary of the properties *)

(** The four switches of [pre_process_dicom_dag]. *)
Definition switches (p : Pipelines.parameters) : bool * bool * bool * bool :=
  (Pipelines.copy_dicom_to_local p, Pipelines.dicom_organizer p,
   Pipelines.mpm_maps p, Pipelines.neuro_morphometric_atlas p).

(** Every [SpmPipelineOperator] of the DAG declares the two triggers. *)
Definition spm_triggers_declared (d : DAG) : Prop :=
  forall o, In o (tasks d) -> op_class o = SpmPipelineOperator ->
    lookup "on_skip_trigger_dag_id" (op_kwargs o)
      = Some (PyStr "mri_notify_skipped_processing") /\
    lookup "on_failure_trigger_dag_id" (op_kwargs o)
      = Some (PyStr "mri_notify_failed_processing").



(** The part of a dotted name after its last dot. *)
Fixpoint basename_from (acc : string) (s : string) : string :=
  match s with
  | EmptyString => acc
  | String c rest =>
      if Ascii.eqb c "."%char then basename_from rest rest
      else basename_from acc rest
  end.
Definition basename (s : string) : string := basename_from s s.

(** The functions a trace calls, by the name after the last dot. *)
Definition called_functions (tr : list event) : list string :=
  map (fun ev => match ev with Called fn _ => basename fn end) tr.

(** *** Reading the graph of a DAG *)

(** One order of the task ids of the repository. *)
Definition pipeline_order : list string :=
  [ "check_free_space"; "copy_dicom_to_local"; "prepare_pipeline";
    "dicom_organizer_pipeline"; "extract_dicom_info";
    "dicom_to_nifti_pipeline"; "cleanup_local_dicom"; "extract_nifti_info";
    "mpm_maps_pipeline"; "extract_nifti_mpm_info";
    "neuro_morphometric_atlas_pipeline"; "extract_nifti_atlas_info";
    "notify_success" ].

Fixpoint position_in (order : list string) (id : string) : nat :=
  match order with
  | [] => O
  | first :: rest =>
      if String.eqb first id then O else S (position_in rest id)
  end.

(** The place of a task id in [pipeline_order]. *)
Definition position (id : string) : nat := position_in pipeline_order id.

(** The tasks [id] was set downstream of, in the order of the calls. *)
Definition upstream_ids (d : DAG) (id : string) : list string :=
  map fst (filter (fun l => String.eqb (snd l) id) (links d)).

(** The tasks set downstream of [id]. *)
Definition downstream_ids (d : DAG) (id : string) : list string :=
  map snd (filter (fun l => String.eqb (fst l) id) (links d)).

(** The integer [priority_weight] a task was declared with. *)
Definition weight (d : DAG) (id : string) : option Z :=
  match task_kwarg d id "priority_weight" with
  | Some (PyInt n) => Some n
  | _ => None
  end.

(** *** Reading strings *)

Fixpoint has_space (s : string) : bool :=
  match s with
  | EmptyString => false
  | String c rest => Ascii.eqb c " "%char || has_space rest
  end.

Fixpoint count_commas (s : string) : nat :=
  match s with
  | EmptyString => O
  | String c rest =>
      (if Ascii.eqb c ","%char then 1 else 0)%nat + count_commas rest
  end.

Fixpoint has_comma (s : string) : bool :=
  match s with
  | EmptyString => false
  | String c rest => Ascii.eqb c ","%char || has_comma rest
  end.

(** A step handle is consistent when the task id it carries is the id of
    the task it carries. *)
Definition consistent_step (s : CopyToLocal.Step) : Prop :=
  match CopyToLocal.task s with
  | Some t => CopyToLocal.step_task_id s = PyStr (task_id t)
  | None => True
  end.

(** *** A sample world and sample calls, for the concrete instances *)

(** A configuration store as an association list of
    ((section, key), value), with a [strip] that drops spaces at both
    ends. *)
Fixpoint store_lookup (section key : string)
  (kv : list (string * string * string)) : option string :=
  match kv with
  | [] => None
  | (s, k, v) :: rest =>
      if (String.eqb s section && String.eqb k key)%bool then Some v
      else store_lookup section key rest
  end.

Fixpoint drop_leading_spaces (s : string) : string :=
  match s with
  | String c rest =>
      if Ascii.eqb c " "%char then drop_leading_spaces rest else s
  | EmptyString => EmptyString
  end.

Fixpoint reverse_onto (acc s : string) : string :=
  match s with
  | EmptyString => acc
  | String c rest => reverse_onto (String c acc) rest
  end.

Definition sample_strip (s : string) : string :=
  reverse_onto ""
    (drop_leading_spaces (reverse_onto "" (drop_leading_spaces s))).

Definition sample_configuration : CopyToLocal.Configuration :=
  {| CopyToLocal.store := list (string * string * string);
     CopyToLocal.default_config := fun section key value kv =>
       match store_lookup section key kv with
       | Some _ => Ok kv
       | None => Ok ((section, key, value) :: kv)
       end;
     CopyToLocal.get := fun section key kv =>
       match store_lookup section key kv with
       | Some v => Ok v
       | None => Err (Raised "configuration.get")
       end;
     CopyToLocal.getfloat := fun section key kv =>
       match store_lookup section key kv with
       | Some _ => Ok (PyFloat 3 (-2))
       | None => Err (Raised "configuration.getfloat")
       end;
     CopyToLocal.str_strip := sample_strip |}.

Definition sample_store : list (string * string * string) :=
  [ ("preprocessing", "INPUT_CONFIG", "boost, session_id_by_patient");
    ("preprocessing", "MIN_FREE_SPACE", "0.75");
    ("preprocessing:copy_to_local", "OUTPUT_FOLDER", "/data/local") ].

(** A world in which [visit_info] raises, and one in which [dicom2db] and
    [nifti2db] raise. *)
Definition failing_visit_externals : Externals :=
  {| abspath := fun path => path;
     opaque_parent_folder := fun _ => Err (Raised "__add__");
     str_lower := fun s => s;
     percent_format := fun fmt _ => fmt;
     datetime_now := PyObject "datetime(2017, 1, 1, 0, 0)";
     pipeline_trigger := fun parent => PyObject ("pipeline_trigger:" ++ parent);
     configuration_get := fun section key => "/cfg/" ++ section ++ "/" ++ key;
     py_float := fun _ => PyFloat 3 (-2);
     visit_info := fun _ => Err (Raised "dicom_import.visit_info");
     dicom2db := fun _ => Ok tt;
     nifti2db := fun _ _ _ => Ok tt |}.

Definition failing_import_externals : Externals :=
  {| abspath := fun path => path;
     opaque_parent_folder := fun _ => Err (Raised "__add__");
     str_lower := fun s => s;
     percent_format := fun fmt _ => fmt;
     datetime_now := PyObject "datetime(2017, 1, 1, 0, 0)";
     pipeline_trigger := fun parent => PyObject ("pipeline_trigger:" ++ parent);
     configuration_get := fun section key => "/cfg/" ++ section ++ "/" ++ key;
     py_float := fun _ => PyFloat 3 (-2);
     visit_info := fun _ => Ok (PyStr "PR00001", PyStr "2017-01-01");
     dicom2db := fun _ => Err (Raised "dicom_import.dicom2db");
     nifti2db := fun _ _ _ => Err (Raised "nifti_import.nifti2db") |}.

Definition sample_externals : Externals :=
  {| abspath := fun path => "/abs/" ++ path;
     opaque_parent_folder := fun _ => Err (Raised "__add__");
     str_lower := fun s => s;
     percent_format := fun fmt _ => fmt;
     datetime_now := PyObject "datetime(2017, 1, 1, 0, 0)";
     pipeline_trigger := fun parent => PyObject ("pipeline_trigger:" ++ parent);
     configuration_get := fun section key => "/cfg/" ++ section ++ "/" ++ key;
     py_float := fun _ => PyFloat 3 (-2);
     visit_info := fun _ => Ok (PyStr "PR00001", PyStr "2017-01-01");
     dicom2db := fun _ => Ok tt;
     nifti2db := fun _ _ _ => Ok tt |}.

(** [pre_process_dicom_dag('demo', 'ops@example.org', 4, '/opt/misc', 0.75,
    '/data/dicom')]: only the required arguments. *)
Definition sample_parameters : Pipelines.parameters :=
  Pipelines.with_defaults "demo" (PyStr "ops@example.org") (PyInt 4)
    (PyStr "/opt/misc") (PyFloat 3 (-2)) (PyStr "/data/dicom").

(** A call that differs from [p] in the four switches only. *)
Definition with_switches (p : Pipelines.parameters)
  (copy organizer mpm atlas : bool) : Pipelines.parameters :=
  {| Pipelines.dataset := Pipelines.dataset p;
     Pipelines.email_errors_to := Pipelines.email_errors_to p;
     Pipelines.max_active_runs := Pipelines.max_active_runs p;
     Pipelines.misc_library_path := Pipelines.misc_library_path p;
     Pipelines.min_free_space_local_folder :=
       Pipelines.min_free_space_local_folder p;
     Pipelines.dicom_local_folder := Pipelines.dicom_local_folder p;
     Pipelines.copy_dicom_to_local := copy;
     Pipelines.dicom_organizer := organizer;
     Pipelines.dicom_organizer_spm_function :=
       Pipelines.dicom_organizer_spm_function p;
     Pipelines.dicom_organizer_pipeline_path :=
       Pipelines.dicom_organizer_pipeline_path p;
     Pipelines.dicom_organizer_local_folder :=
       Pipelines.dicom_organizer_local_folder p;
     Pipelines.dicom_organizer_data_structure :=
       Pipelines.dicom_organizer_data_structure p;
     Pipelines.dicom_to_nifti_spm_function :=
       Pipelines.dicom_to_nifti_spm_function p;
     Pipelines.dicom_to_nifti_pipeline_path :=
       Pipelines.dicom_to_nifti_pipeline_path p;
     Pipelines.dicom_to_nifti_local_folder :=
       Pipelines.dicom_to_nifti_local_folder p;
     Pipelines.dicom_to_nifti_server_folder :=
       Pipelines.dicom_to_nifti_server_folder p;
     Pipelines.mpm_maps := mpm;
     Pipelines.mpm_maps_spm_function := Pipelines.mpm_maps_spm_function p;
     Pipelines.mpm_maps_pipeline_path := Pipelines.mpm_maps_pipeline_path p;
     Pipelines.mpm_maps_local_folder := Pipelines.mpm_maps_local_folder p;
     Pipelines.mpm_maps_server_folder := Pipelines.mpm_maps_server_folder p;
     Pipelines.neuro_morphometric_atlas := atlas;
     Pipelines.neuro_morphometric_atlas_spm_function :=
       Pipelines.neuro_morphometric_atlas_spm_function p;
     Pipelines.neuro_morphometric_atlas_pipeline_path :=
       Pipelines.neuro_morphometric_atlas_pipeline_path p;
     Pipelines.neuro_morphometric_atlas_local_folder :=
       Pipelines.neuro_morphometric_atlas_local_folder p;
     Pipelines.neuro_morphometric_atlas_server_folder :=
       Pipelines.neuro_morphometric_atlas_server_folder p |}.

(** The sample call with [copy_dicom_to_local=False]. *)
Definition sample_without_copy : Pipelines.parameters :=
  with_switches sample_parameters false false true true.

(** The sample call with every optional step switched on. *)
Definition sample_with_organizer : Pipelines.parameters :=
  with_switches sample_parameters true true true true.

(** A DAG with one task already in it, and step handles that do and do not
    carry it. *)
Definition sample_upstream_task : operator :=
  Operator BashOperator "start" [("priority_weight", PyInt 5)].

Definition sample_dag : DAG :=
  snd (instantiate BashOperator "start" [("priority_weight", PyInt 5)]
         (new_dag "demo_dag" [])).

Definition sample_step : CopyToLocal.Step :=
  CopyToLocal.mkStep (Some sample_upstream_task) (PyStr "start") 5.

Definition sample_initial_step : CopyToLocal.Step :=
  CopyToLocal.mkStep None PyNone 0.

(** ** Properties *)

(** *** Proof steps shared by the statements below *)

(** Splits a builder call on its four switches; cases that contradict a
    hypothesis on a switch are dropped. *)
Ltac split_switches p :=
  destruct p as [? ? ? ? ? ? [] [] ? ? ? ? ? ? ? ? [] ? ? ? ? [] ? ? ? ?];
  simpl Pipelines.copy_dicom_to_local in *;
  simpl Pipelines.dicom_organizer in *;
  simpl Pipelines.mpm_maps in *;
  simpl Pipelines.neuro_morphometric_atlas in *;
  try discriminate.

(** Goes through the members of a list that computes to its elements. *)
Ltac each_member H :=
  repeat (destruct H as [H | H]; [ subst | ]); try contradiction.

(** One link of a chain that proves [upstream_of]. *)
Ltac via mid := apply (upstream_step _ _ mid); [ reflexivity | ].
Ltac linked := apply upstream_direct; reflexivity.

(** *** The free-space sensor *)

(** C4.  In both DAG definitions the task [check_free_space] is a
    [FreeSpaceSensor] with a retry delay of one hour (3600 s), 168 = 24 * 7
    retries, the configured local DICOM folder as its path, the configured
    minimum free space as its threshold, and the pool [remote_file_copy]. *)
Theorem check_free_space_configuration
  (E : Externals) (p : Pipelines.parameters) :
  let built := Pipelines.pre_process_dicom_dag p in
  let fixed := Hardcoded.dag in
  (task_class built "check_free_space" = Some FreeSpaceSensor /\
   task_kwarg built "check_free_space" "retry_delay" = Some (PyTimedelta 3600) /\
   task_kwarg built "check_free_space" "retries" = Some (PyInt 168) /\
   task_kwarg built "check_free_space" "path"
     = Some (Pipelines.dicom_local_folder p) /\
   task_kwarg built "check_free_space" "free_disk_threshold"
     = Some (Pipelines.min_free_space_local_folder p) /\
   task_kwarg built "check_free_space" "pool" = Some (PyStr "remote_file_copy"))
  /\
  (task_class fixed "check_free_space" = Some FreeSpaceSensor /\
   task_kwarg fixed "check_free_space" "retry_delay" = Some (PyTimedelta 3600) /\
   task_kwarg fixed "check_free_space" "retries" = Some (PyInt 168) /\
   task_kwarg fixed "check_free_space" "path"
     = Some (PyStr (configuration_get "mri" "DICOM_LOCAL_FOLDER")) /\
   task_kwarg fixed "check_free_space" "free_disk_threshold"
     = Some (py_float (configuration_get "mri" "MIN_FREE_SPACE_LOCAL_FOLDER")) /\
   task_kwarg fixed "check_free_space" "pool" = Some (PyStr "remote_file_copy")).
Proof.
  cbv zeta. split.
  - split_switches p; repeat split; vm_compute; reflexivity.
  - repeat split; vm_compute; reflexivity.
Qed.

(** *** The order of the steps *)

(** C2.  When [copy_dicom_to_local] is on, whatever the other switches, the
    built DAG has the links check_free_space -> copy_dicom_to_local ->
    prepare_pipeline, then extract_dicom_info -> dicom_to_nifti_pipeline ->
    extract_nifti_info -> notify_success, and prepare_pipeline is upstream of
    extract_dicom_info (by a direct link, or through
    dicom_organizer_pipeline when that step is on).  The optional pipelines
    come after the conversion: mpm_maps_pipeline is linked to
    dicom_to_nifti_pipeline, and neuro_morphometric_atlas_pipeline is
    downstream of it (directly, or through mpm_maps_pipeline). *)
Theorem linear_order_with_copy (E : Externals) (p : Pipelines.parameters) :
  Pipelines.copy_dicom_to_local p = true ->
  let d := Pipelines.pre_process_dicom_dag p in
  has_link d "check_free_space" "copy_dicom_to_local" = true /\
  has_link d "copy_dicom_to_local" "prepare_pipeline" = true /\
  upstream_of d "prepare_pipeline" "extract_dicom_info" /\
  has_link d "prepare_pipeline" "extract_dicom_info"
    = negb (Pipelines.dicom_organizer p) /\
  has_link d "extract_dicom_info" "dicom_to_nifti_pipeline" = true /\
  has_link d "dicom_to_nifti_pipeline" "extract_nifti_info" = true /\
  has_link d "extract_nifti_info" "notify_success" = true /\
  (Pipelines.mpm_maps p = true ->
     has_link d "dicom_to_nifti_pipeline" "mpm_maps_pipeline" = true) /\
  (Pipelines.neuro_morphometric_atlas p = true ->
     upstream_of d "dicom_to_nifti_pipeline" "neuro_morphometric_atlas_pipeline").
Proof.
  intros Hcopy d. subst d.
  split_switches p;
    (repeat split; try reflexivity; try discriminate; try intros _;
     first [ reflexivity
           | linked
           | via "dicom_organizer_pipeline"; linked
           | via "mpm_maps_pipeline"; linked ]).
Qed.

(** The theorem above at the sample call with every optional step on. *)
Lemma linear_order_with_copy_witness :
  let d := @Pipelines.pre_process_dicom_dag sample_externals
             sample_with_organizer in
  Pipelines.copy_dicom_to_local sample_with_organizer = true /\
  upstream_of d "prepare_pipeline" "extract_dicom_info" /\
  has_link d "dicom_to_nifti_pipeline" "mpm_maps_pipeline" = true /\
  upstream_of d "dicom_to_nifti_pipeline" "neuro_morphometric_atlas_pipeline".
Proof.
  cbv zeta.
  destruct (linear_order_with_copy sample_externals sample_with_organizer
              eq_refl)
    as (_ & _ & Hprep & _ & _ & _ & _ & Hmpm & Hatlas).
  split; [ reflexivity | ].
  split; [ exact Hprep | ].
  split; [ exact (Hmpm eq_refl) | exact (Hatlas eq_refl) ].
Defined.

(** *** Success is notified last *)

(** C8.  In the built DAG [notify_success] is linked downstream of
    [extract_nifti_info] always, of [extract_nifti_mpm_info] when [mpm_maps]
    is on, and of [extract_nifti_atlas_info] when
    [neuro_morphometric_atlas] is on; and every extraction task the DAG
    declares (each [PythonPipelineOperator]) is upstream of
    [notify_success]. *)
Theorem notify_success_after_extractions
  (E : Externals) (p : Pipelines.parameters) :
  let d := Pipelines.pre_process_dicom_dag p in
  has_link d "extract_nifti_info" "notify_success" = true /\
  (Pipelines.mpm_maps p = true ->
     has_task d "extract_nifti_mpm_info" = true /\
     has_link d "extract_nifti_mpm_info" "notify_success" = true) /\
  (Pipelines.neuro_morphometric_atlas p = true ->
     has_task d "extract_nifti_atlas_info" = true /\
     has_link d "extract_nifti_atlas_info" "notify_success" = true) /\
  (forall o, In o (tasks d) -> op_class o = PythonPipelineOperator ->
     upstream_of d (task_id o) "notify_success").
Proof.
  cbv zeta.
  split_switches p;
    (split; [ reflexivity | ]);
    (split; [ first [ discriminate | intros _; split; reflexivity ] | ]);
    (split; [ first [ discriminate | intros _; split; reflexivity ] | ]);
    intros o Hin Hclass; vm_compute in Hin; each_member Hin;
    try discriminate Hclass;
    first [ linked
          | via "dicom_to_nifti_pipeline"; via "extract_nifti_info"; linked
          | via "dicom_organizer_pipeline"; via "extract_dicom_info";
            via "dicom_to_nifti_pipeline"; via "extract_nifti_info"; linked ].
Qed.

(** The theorem above at the sample call, where both optional pipelines are
    on. *)
Lemma notify_success_after_extractions_witness :
  let d := @Pipelines.pre_process_dicom_dag sample_externals
             sample_parameters in
  has_link d "extract_nifti_mpm_info" "notify_success" = true /\
  has_link d "extract_nifti_atlas_info" "notify_success" = true /\
  upstream_of d "extract_dicom_info" "notify_success".
Proof.
  cbv zeta.
  destruct (notify_success_after_extractions sample_externals
              sample_parameters) as (_ & Hmpm & Hatlas & Hall).
  split; [ exact (proj2 (Hmpm eq_refl)) | ].
  split; [ exact (proj2 (Hatlas eq_refl)) | ].
  apply (Hall (Operator PythonPipelineOperator "extract_dicom_info"
                 [ ("python_callable",
                      PyFunc Pipelines.this_module "extract_dicom_info_fn");
                   ("parent_task", PyStr "prepare_pipeline");
                   ("pool", PyStr "io_intensive");
                   ("priority_weight", PyInt 15);
                   ("execution_timeout", PyTimedelta 21600) ])).
  - vm_compute. tauto.
  - reflexivity.
Defined.

(** *** Failure and skip triggers *)

(** C3, as stated, fails: the hard-coded DAG declares [SpmPipelineOperator]
    tasks without any trigger; [dicom_to_nifti_pipeline] is one. *)
Lemma hardcoded_spm_without_triggers :
  ~ spm_triggers_declared (@Hardcoded.dag sample_externals).
Proof.
  intros Hall.
  assert (Hfound : exists o,
             find_task (@Hardcoded.dag sample_externals)
                       "dicom_to_nifti_pipeline" = Some o /\
             op_class o = SpmPipelineOperator /\
             lookup "on_skip_trigger_dag_id" (op_kwargs o) = None).
  { eexists. split; [ reflexivity | split; reflexivity ]. }
  destruct Hfound as (o & Hfind & Hclass & Hnone).
  apply find_some in Hfind. destruct Hfind as [Hin _].
  destruct (Hall o Hin Hclass) as [Hskip _].
  rewrite Hnone in Hskip. discriminate Hskip.
Qed.

(** C3, amended.  In both DAG definitions failure handling is declared as
    keyword arguments: [retries=1] and [retry_delay] of 120 s in the
    [default_args] of the DAG, and trigger dag ids on operators.  Every
    [SpmPipelineOperator] that [pre_process_dicom_dag] creates, whatever the
    switches, is declared with
    [on_skip_trigger_dag_id='mri_notify_skipped_processing'] and
    [on_failure_trigger_dag_id='mri_notify_failed_processing']; in the
    hard-coded DAG no task declares either trigger. *)
Theorem spm_trigger_declarations (E : Externals) (p : Pipelines.parameters) :
  let built := Pipelines.pre_process_dicom_dag p in
  let fixed := Hardcoded.dag in
  (default_arg built "retries" = Some (PyInt 1) /\
   default_arg built "retry_delay" = Some (PyTimedelta 120) /\
   default_arg fixed "retries" = Some (PyInt 1) /\
   default_arg fixed "retry_delay" = Some (PyTimedelta 120)) /\
  spm_triggers_declared built /\
  (forall o, In o (tasks fixed) ->
     lookup "on_skip_trigger_dag_id" (op_kwargs o) = None /\
     lookup "on_failure_trigger_dag_id" (op_kwargs o) = None).
Proof.
  cbv zeta.
  split; [ split_switches p; repeat split; reflexivity | ].
  split.
  - unfold spm_triggers_declared.
    split_switches p; intros o Hin Hclass; vm_compute in Hin;
      each_member Hin; try discriminate Hclass; split; reflexivity.
  - intros o Hin. vm_compute in Hin. each_member Hin; split; reflexivity.
Qed.

(** The theorem above at the sample call: the converter of the built DAG
    declares its failure trigger, the hard-coded one does not. *)
Lemma spm_trigger_declarations_witness :
  task_kwarg (@Pipelines.pre_process_dicom_dag sample_externals
                sample_parameters)
             "dicom_to_nifti_pipeline" "on_failure_trigger_dag_id"
    = Some (PyStr "mri_notify_failed_processing") /\
  task_kwarg (@Hardcoded.dag sample_externals)
             "dicom_to_nifti_pipeline" "on_failure_trigger_dag_id" = None.
Proof.
  destruct (spm_trigger_declarations sample_externals sample_parameters)
    as (_ & Hbuilt & Hfixed).
  split.
  - assert (Hfound : exists o,
               find_task (@Pipelines.pre_process_dicom_dag sample_externals
                            sample_parameters)
                         "dicom_to_nifti_pipeline" = Some o /\
               op_class o = SpmPipelineOperator)
      by (eexists; split; reflexivity).
    destruct Hfound as (o & Hfind & Hclass).
    unfold task_kwarg. rewrite Hfind.
    apply find_some in Hfind.
    exact (proj2 (Hbuilt o (proj1 Hfind) Hclass)).
  - assert (Hfound : exists o,
               find_task (@Hardcoded.dag sample_externals)
                         "dicom_to_nifti_pipeline" = Some o)
      by (eexists; reflexivity).
    destruct Hfound as (o & Hfind).
    unfold task_kwarg. rewrite Hfind.
    apply find_some in Hfind.
    exact (proj2 (Hfixed o (proj1 Hfind))).
Defined.

(** *** The builder with its defaults against the hard-coded module *)




(** *** What is declared depends on the switches *)

(** C7, as stated, fails: the declarations are not unconditional.  Called
    with [copy_dicom_to_local=False] the builder declares no
    [copy_dicom_to_local] task; called with the default it does. *)
Lemma declarations_are_conditional :
  has_task (@Pipelines.pre_process_dicom_dag sample_externals
              sample_without_copy) "copy_dicom_to_local" = false /\
  has_task (@Pipelines.pre_process_dicom_dag sample_externals
              sample_parameters) "copy_dicom_to_local" = true /\
  task_ids (@Pipelines.pre_process_dicom_dag sample_externals
              sample_without_copy)
    <> task_ids (@Pipelines.pre_process_dicom_dag sample_externals
                   sample_parameters).
Proof.
  split; [ vm_compute; reflexivity | ].
  split; [ vm_compute; reflexivity | ].
  vm_compute. discriminate.
Qed.

(** C7, amended.  Every task of the built DAG is an instance of one of six
    framework operator classes, configured by keyword arguments; which tasks
    and links are declared is conditional.  In [pre_process_dicom_dag] the
    four switches decide it: the tasks [copy_dicom_to_local],
    [dicom_organizer_pipeline], [mpm_maps_pipeline] with
    [extract_nifti_mpm_info], and [neuro_morphometric_atlas_pipeline] with
    [extract_nifti_atlas_info] are declared exactly when their switch is on,
    the seven other tasks always, and two calls with the same switches
    declare the same task ids, operator classes and links.  In
    [copy_to_local_step] one task is declared always, and its upstream link
    exactly when the upstream step carries a task. *)
Theorem declarations_follow_switches
  (E : Externals) (p q : Pipelines.parameters) :
  let d := Pipelines.pre_process_dicom_dag p in
  (forall o, In o (tasks d) ->
     In (op_class o)
        [ FreeSpaceSensor; BashOperator; PreparePipelineOperator;
          PythonPipelineOperator; SpmPipelineOperator;
          TriggerDagRunOperator ]) /\
  (has_task d "copy_dicom_to_local" = Pipelines.copy_dicom_to_local p /\
   has_task d "dicom_organizer_pipeline" = Pipelines.dicom_organizer p /\
   has_task d "mpm_maps_pipeline" = Pipelines.mpm_maps p /\
   has_task d "extract_nifti_mpm_info" = Pipelines.mpm_maps p /\
   has_task d "neuro_morphometric_atlas_pipeline"
     = Pipelines.neuro_morphometric_atlas p /\
   has_task d "extract_nifti_atlas_info"
     = Pipelines.neuro_morphometric_atlas p) /\
  (forall id,
     In id [ "check_free_space"; "prepare_pipeline"; "extract_dicom_info";
             "dicom_to_nifti_pipeline"; "cleanup_local_dicom";
             "extract_nifti_info"; "notify_success" ] ->
     has_task d id = true) /\
  (switches p = switches q ->
     task_ids d = task_ids (Pipelines.pre_process_dicom_dag q) /\
     map op_class (tasks d)
       = map op_class (tasks (Pipelines.pre_process_dicom_dag q)) /\
     links d = links (Pipelines.pre_process_dicom_dag q)) /\
  (forall (dag : DAG) (upstream_step : CopyToLocal.Step)
          (min_free_space output_folder : pyval) (dataset_config : list string),
     let after :=
       snd (CopyToLocal.copy_to_local_step upstream_step min_free_space
              output_folder dataset_config dag) in
     task_ids after = (task_ids dag ++ ["copy_to_local"])%list /\
     links after =
       match CopyToLocal.task upstream_step with
       | Some upstream_task =>
           (links dag ++ [(task_id upstream_task, "copy_to_local")])%list
       | None => links dag
       end).
Proof.
  cbv zeta.
  split; [ split_switches p; intros o Hin; vm_compute in Hin;
           each_member Hin; simpl; tauto | ].
  split; [ split_switches p; repeat split; vm_compute; reflexivity | ].
  split; [ intros id Hin; simpl in Hin;
           split_switches p; each_member Hin; vm_compute; reflexivity | ].
  split.
  - intros Hsame. unfold switches in Hsame.
    split_switches p; split_switches q; try discriminate Hsame;
      repeat split; vm_compute; reflexivity.
  - intros dag [upstream_task step_id weight] mfs out cfg.
    destruct dag as [id kw ts ls].
    unfold task_ids. destruct upstream_task as [t |]; simpl.
    + rewrite map_app. split; reflexivity.
    + rewrite map_app. split; reflexivity.
Qed.

(** The theorem above at two sample calls that differ in everything but
    the switches, and at a step handle with an upstream task. *)
Lemma declarations_follow_switches_witness :
  let p := sample_parameters in
  let q := Pipelines.with_defaults "other study" PyNone (PyInt 1)
             (PyStr "/srv/misc") (PyFloat 1 (-1)) (PyStr "/srv/dicom") in
  switches p = switches q /\
  links (@Pipelines.pre_process_dicom_dag sample_externals p)
    = links (@Pipelines.pre_process_dicom_dag sample_externals q) /\
  has_task (@Pipelines.pre_process_dicom_dag sample_externals p)
           "notify_success" = true /\
  links (snd (CopyToLocal.copy_to_local_step sample_step (PyFloat 3 (-2))
                (PyStr "/data/local") ["flag"] sample_dag))
    = [("start", "copy_to_local")].
Proof.
  cbv zeta.
  destruct (declarations_follow_switches sample_externals sample_parameters
              (Pipelines.with_defaults "other study" PyNone (PyInt 1)
                 (PyStr "/srv/misc") (PyFloat 1 (-1)) (PyStr "/srv/dicom")))
    as (_ & _ & Halways & Hsame & Hstep).
  split; [ reflexivity | ].
  split; [ exact (proj2 (proj2 (Hsame eq_refl))) | ].
  split; [ apply Halways; simpl; tauto | ].
  exact (proj2 (Hstep sample_dag sample_step (PyFloat 3 (-2))
                  (PyStr "/data/local") ["flag"])).
Defined.

(** *** The metadata-extraction callables *)

(** C5, as stated, fails on the names: the callables call
    [dicom_import.dicom2db] and [nifti_import.nifti2db]; no call to a
    function named [dicom_to_db] or [nifti_to_db] is made. *)
Lemma extraction_calls_are_not_named_to_db :
  ~ In "dicom_to_db"
       (called_functions
          (snd (run_io (@Pipelines.extract_dicom_info_fn sample_externals
                          sample_parameters "/data/in/s1" (PyStr "s1") [])))) /\
  ~ In "nifti_to_db"
       (called_functions
          (snd (run_io (@Pipelines.extract_nifti_info_fn sample_externals
                          sample_parameters "/data/in/s1" (PyStr "s1")
                          (PyStr "PR00001") (PyStr "2017-01-01") [])))).
Proof.
  split; vm_compute; intros H; each_member H; discriminate H.
Qed.

(** C5, amended.  In both modules, besides logging one message,
    [extract_dicom_info_fn] calls [dicom_import.visit_info(folder)], then
    [dicom_import.dicom2db(folder)], and nothing else; when both calls
    return, it returns the dictionary with exactly the keys
    ['participant_id'] and ['scan_date'] holding the pair [visit_info]
    returned.  Besides logging one message, [extract_nifti_info_fn] calls
    [nifti_import.nifti2db(folder, participant_id, scan_date)] and nothing
    else; when the call returns, it returns the string ["ok"]. *)
Theorem extraction_callables
  (E : Externals) (p : Pipelines.parameters)
  (folder : string) (session_id participant_id scan_date : pyval)
  (kw : kwargs) :
  (forall visit_participant visit_date,
     visit_info folder = Ok (visit_participant, visit_date) ->
     dicom2db folder = Ok tt ->
     let expected :=
       (Ok (PyDict [ ("participant_id", visit_participant);
                     ("scan_date", visit_date) ]),
        [ Called "logging.info"
            [PyStr (percent_format "folder %s, session_id %s"
                                   [PyStr folder; session_id])];
          Called "dicom_import.visit_info" [PyStr folder];
          Called "dicom_import.dicom2db" [PyStr folder] ]) in
     run_io (Pipelines.extract_dicom_info_fn p folder session_id kw)
       = expected /\
     run_io (Hardcoded.extract_dicom_info_fn folder session_id kw)
       = expected) /\
  (nifti2db folder participant_id scan_date = Ok tt ->
     let expected :=
       (Ok (PyStr "ok"),
        [ Called "logging.info"
            [PyStr (percent_format
                      "NIFTI extract: session_id=%s, input_folder=%s"
                      [session_id; PyStr folder])];
          Called "nifti_import.nifti2db"
            [PyStr folder; participant_id; scan_date] ]) in
     run_io (Pipelines.extract_nifti_info_fn p folder session_id
               participant_id scan_date kw) = expected /\
     run_io (Hardcoded.extract_nifti_info_fn folder session_id
               participant_id scan_date kw) = expected).
Proof.
  split.
  - intros visit_participant visit_date Hvisit Hdb. cbv zeta.
    unfold run_io, Pipelines.extract_dicom_info_fn,
      Hardcoded.extract_dicom_info_fn, io_bind, call, lift, io_ret.
    cbn. rewrite Hvisit. cbn. rewrite Hdb. split; reflexivity.
  - intros Hdb. cbv zeta.
    unfold run_io, Pipelines.extract_nifti_info_fn,
      Hardcoded.extract_nifti_info_fn, io_bind, call, lift, io_ret.
    cbn. rewrite Hdb. split; reflexivity.
Qed.

(** The theorem above in the sample world, where the external calls
    return. *)
Lemma extraction_callables_witness :
  fst (run_io (@Pipelines.extract_dicom_info_fn sample_externals
                 sample_parameters "/data/in/s1" (PyStr "s1") []))
    = Ok (PyDict [ ("participant_id", PyStr "PR00001");
                   ("scan_date", PyStr "2017-01-01") ]) /\
  fst (run_io (@Hardcoded.extract_nifti_info_fn sample_externals
                 "/data/in/s1" (PyStr "s1") (PyStr "PR00001")
                 (PyStr "2017-01-01") []))
    = Ok (PyStr "ok").
Proof.
  destruct (extraction_callables sample_externals sample_parameters
              "/data/in/s1" (PyStr "s1") (PyStr "PR00001")
              (PyStr "2017-01-01") []) as [Hdicom Hnifti].
  split.
  - destruct (Hdicom (PyStr "PR00001") (PyStr "2017-01-01")
                eq_refl eq_refl) as [Hbuilt _].
    rewrite Hbuilt. reflexivity.
  - destruct (Hnifti eq_refl) as [_ Hfixed].
    rewrite Hfixed. reflexivity.
Defined.

(** *** The argument lists of the SPM pipelines *)

(** In the hard-coded module, where [protocols_file] is a module constant,
    the three argument builders return their lists for every input. *)
Lemma hardcoded_argument_lists
  (E : Externals) (folder : string)
  (session_id participant_id scan_date : pyval) (kw : kwargs) :
  Hardcoded.dicom_to_nifti_arguments_fn (PyStr folder) session_id participant_id
      scan_date kw
    = Ok (PyList [ PyStr (abspath (folder ++ "/.."));
                   session_id;
                   PyStr Hardcoded.dicom_to_nifti_local_folder;
                   PyStr Hardcoded.dicom_to_nifti_server_folder;
                   PyStr Hardcoded.protocols_file ]) /\
  Hardcoded.mpm_maps_arguments_fn (PyStr folder) session_id participant_id
      scan_date kw
    = Ok (PyList [ PyStr (abspath (folder ++ "/.."));
                   session_id;
                   PyStr Hardcoded.mpm_maps_local_folder;
                   PyStr Hardcoded.protocols_file;
                   PyStr "Preproc_mpm_maps_pipeline_config.txt";
                   PyStr Hardcoded.mpm_maps_server_folder ]) /\
  Hardcoded.neuro_morphometric_atlas_arguments_fn (PyStr folder)
      session_id
      participant_id scan_date kw
    = Ok (PyList [ session_id;
                   PyStr (abspath (folder ++ "/.."));
                   PyStr Hardcoded.neuro_morphometric_atlas_local_folder;
                   PyStr Hardcoded.neuro_morphometric_atlas_server_folder;
                   PyStr Hardcoded.protocols_file;
                   PyStr "csv" ]).
Proof. repeat split; reflexivity. Qed.

(** C6.  The lists are what the claim says in the hard-coded module, for
    every input; in [mri_pipelines/pre_process_dicom.py] the same call of
    [mpm_maps_arguments_fn] and of [neuro_morphometric_atlas_arguments_fn]
    returns no list: it raises [NameError] on [protocols_file]. *)
Theorem argument_lists_at_sample_call :
  let folder := PyStr "/data/incoming/s1" in
  let session_id := PyStr "s1" in
  let participant_id := PyStr "PR00001" in
  let scan_date := PyStr "2017-01-01" in
  (@Hardcoded.mpm_maps_arguments_fn sample_externals folder session_id
      participant_id scan_date []
    = Ok (PyList [ PyStr "/abs//data/incoming/s1/..";
                   PyStr "s1";
                   PyStr "/cfg/mri/MPM_MAPS_LOCAL_FOLDER";
                   PyStr "/cfg/mri/PROTOCOLS_FILE";
                   PyStr "Preproc_mpm_maps_pipeline_config.txt";
                   PyStr "/cfg/mri/MPM_MAPS_SERVER_FOLDER" ]) /\
   @Hardcoded.neuro_morphometric_atlas_arguments_fn sample_externals folder
      session_id participant_id scan_date []
    = Ok (PyList [ PyStr "s1";
                   PyStr "/abs//data/incoming/s1/..";
                   PyStr "/cfg/mri/NEURO_MORPHOMETRIC_ATLAS_LOCAL_FOLDER";
                   PyStr "/cfg/mri/NEURO_MORPHOMETRIC_ATLAS_SERVER_FOLDER";
                   PyStr "/cfg/mri/PROTOCOLS_FILE";
                   PyStr "csv" ])) /\
  (@Pipelines.mpm_maps_arguments_fn sample_externals sample_parameters
      folder session_id participant_id scan_date None []
    = Err (NameError "protocols_file") /\
   @Pipelines.neuro_morphometric_atlas_arguments_fn sample_externals
      sample_parameters folder session_id participant_id scan_date []
    = Err (NameError "protocols_file")).
Proof. cbv zeta. repeat split; vm_compute; reflexivity. Qed.

(** C9, as stated, fails on the inputs: the argument builders evaluate
    [folder + '/..'] before they read [protocols_file], so called with a
    folder that is not a string, [None] here, they raise [TypeError], not
    [NameError]. *)
Lemma none_folder_raises_type_error :
  @Pipelines.mpm_maps_arguments_fn sample_externals sample_parameters
      PyNone (PyStr "s1") (PyStr "PR00001") (PyStr "2017-01-01") None []
    = Err (TypeErrorIn "folder + '/..'") /\
  @Pipelines.mpm_maps_arguments_fn sample_externals sample_parameters
      PyNone (PyStr "s1") (PyStr "PR00001") (PyStr "2017-01-01") None []
    <> Err (NameError "protocols_file").
Proof.
  split; [ vm_compute; reflexivity | vm_compute; discriminate ].
Qed.

(** C9, amended.  In [mri_pipelines/pre_process_dicom.py] the name
    [protocols_file] is not a parameter of [pre_process_dicom_dag], not one
    of its local names, and not bound at the top level of the module; so
    each of the four argument builders, called with a string as folder,
    raises [NameError] on it, whatever the string, the other arguments and
    the parameters of the builder call.  Called with a folder of a builtin
    type on which [folder + '/..'] raises [TypeError] ([None], a number, a
    list, ...), each of them raises that [TypeError] instead, before the
    name is read. *)
Theorem protocols_file_is_unbound
  (E : Externals) (p : Pipelines.parameters)
  (session_id participant_id scan_date : pyval)
  (config_file : option pyval) (kw : kwargs) :
  lookup "protocols_file" (Pipelines.parameter_scope p) = None /\
  ~ In "protocols_file" Pipelines.local_names /\
  lookup "protocols_file" Pipelines.module_globals = None /\
  (forall folder : string,
     Pipelines.dicom_organizer_arguments_fn p (PyStr folder) session_id kw
       = Err (NameError "protocols_file") /\
     Pipelines.dicom_to_nifti_arguments_fn p (PyStr folder) session_id
         participant_id scan_date kw
       = Err (NameError "protocols_file") /\
     Pipelines.neuro_morphometric_atlas_arguments_fn p (PyStr folder)
         session_id participant_id scan_date kw
       = Err (NameError "protocols_file") /\
     Pipelines.mpm_maps_arguments_fn p (PyStr folder) session_id
         participant_id scan_date config_file kw
       = Err (NameError "protocols_file")) /\
  (forall folder : pyval,
     py_add folder (PyStr "/..") = TypeError ->
     Pipelines.dicom_organizer_arguments_fn p folder session_id kw
       = Err (TypeErrorIn "folder + '/..'") /\
     Pipelines.dicom_to_nifti_arguments_fn p folder session_id
         participant_id scan_date kw
       = Err (TypeErrorIn "folder + '/..'") /\
     Pipelines.neuro_morphometric_atlas_arguments_fn p folder session_id
         participant_id scan_date kw
       = Err (TypeErrorIn "folder + '/..'") /\
     Pipelines.mpm_maps_arguments_fn p folder session_id participant_id
         scan_date config_file kw
       = Err (TypeErrorIn "folder + '/..'")).
Proof.
  split; [ reflexivity | ].
  split; [ intros Hin; unfold Pipelines.local_names in Hin; simpl in Hin;
           repeat (destruct Hin as [Hin | Hin]; [ discriminate Hin | ]);
           exact Hin | ].
  split; [ reflexivity | ].
  split.
  - intros folder. repeat split; reflexivity.
  - intros folder Hsum.
    unfold Pipelines.dicom_organizer_arguments_fn,
      Pipelines.dicom_to_nifti_arguments_fn,
      Pipelines.neuro_morphometric_atlas_arguments_fn,
      Pipelines.mpm_maps_arguments_fn, parent_folder.
    cbn. rewrite Hsum. repeat split; reflexivity.
Qed.

(** The theorem above for the folder [None] and for the folder [3]. *)
Lemma protocols_file_is_unbound_witness :
  py_add PyNone (PyStr "/..") = TypeError /\
  @Pipelines.dicom_to_nifti_arguments_fn sample_externals sample_parameters
      PyNone (PyStr "s1") (PyStr "PR00001") (PyStr "2017-01-01") []
    = Err (TypeErrorIn "folder + '/..'") /\
  @Pipelines.dicom_organizer_arguments_fn sample_externals sample_parameters
      (PyInt 3) (PyStr "s1") []
    = Err (TypeErrorIn "folder + '/..'").
Proof.
  pose proof (protocols_file_is_unbound sample_externals sample_parameters
                (PyStr "s1") (PyStr "PR00001") (PyStr "2017-01-01") None [])
    as (_ & _ & _ & _ & Htype).
  split; [ reflexivity | ].
  split.
  - exact (proj1 (proj2 (Htype PyNone eq_refl))).
  - exact (proj1 (Htype (PyInt 3) eq_refl)).
Defined.

(** *** The copy step *)

(** C10.  [copy_to_local_step] declares one [BashPipelineOperator],
    [copy_to_local], whose priority weight is the upstream step's, and
    returns a step that carries it with the upstream step's priority weight
    plus 10.  When the upstream step carries a task, the new operator is
    linked downstream of it; when it carries none, no link is set. *)
Theorem copy_to_local_step_handle
  (dag : DAG) (upstream_step : CopyToLocal.Step)
  (min_free_space output_folder : pyval) (dataset_config : list string) :
  let (step, after) :=
    CopyToLocal.copy_to_local_step upstream_step min_free_space output_folder
      dataset_config dag in
  CopyToLocal.priority_weight step
    = CopyToLocal.priority_weight upstream_step + 10 /\
  (exists copy_to_local,
     CopyToLocal.task step = Some copy_to_local /\
     tasks after = (tasks dag ++ [copy_to_local])%list /\
     op_class copy_to_local = BashPipelineOperator /\
     task_id copy_to_local = "copy_to_local" /\
     CopyToLocal.step_task_id step = PyStr "copy_to_local" /\
     lookup "priority_weight" (op_kwargs copy_to_local)
       = Some (PyInt (CopyToLocal.priority_weight upstream_step))) /\
  (forall upstream_task,
     CopyToLocal.task upstream_step = Some upstream_task ->
     links after
       = (links dag ++ [(task_id upstream_task, "copy_to_local")])%list) /\
  (CopyToLocal.task upstream_step = None -> links after = links dag).
Proof.
  destruct upstream_step as [[upstream_task |] step_id weight];
    destruct dag as [id kw ts ls]; cbn.
  - split; [ reflexivity | ].
    split; [ eexists; repeat split; reflexivity | ].
    split; [ intros t Ht; injection Ht as <-; reflexivity
           | intros Hnone; discriminate Hnone ].
  - split; [ reflexivity | ].
    split; [ eexists; repeat split; reflexivity | ].
    split; [ intros t Ht; discriminate Ht | intros _; reflexivity ].
Qed.

(** The theorem above at a step with an upstream task and at one
    without. *)
Lemma copy_to_local_step_handle_witness :
  links (snd (CopyToLocal.copy_to_local_step sample_step (PyFloat 3 (-2))
                (PyStr "/data/local") ["flag"] sample_dag))
    = [("start", "copy_to_local")] /\
  links (snd (CopyToLocal.copy_to_local_step sample_initial_step
                (PyFloat 3 (-2)) (PyStr "/data/local") ["flag"]
                (new_dag "demo_dag" [])))
    = [] /\
  CopyToLocal.priority_weight
    (fst (CopyToLocal.copy_to_local_step sample_step (PyFloat 3 (-2))
            (PyStr "/data/local") ["flag"] sample_dag)) = 15.
Proof.
  pose proof (copy_to_local_step_handle sample_dag sample_step
                (PyFloat 3 (-2)) (PyStr "/data/local") ["flag"]) as Hwith.
  pose proof (copy_to_local_step_handle (new_dag "demo_dag" [])
                sample_initial_step (PyFloat 3 (-2)) (PyStr "/data/local")
                ["flag"]) as Hwithout.
  destruct (CopyToLocal.copy_to_local_step sample_step _ _ _ sample_dag)
    as [step after].
  destruct (CopyToLocal.copy_to_local_step sample_initial_step _ _ _ _)
    as [step0 after0].
  destruct Hwith as (Hweight & _ & Hlink & _).
  destruct Hwithout as (_ & _ & _ & Hnolink).
  split; [ exact (Hlink sample_upstream_task eq_refl) | ].
  split; [ exact (Hnolink eq_refl) | exact Hweight ].
Defined.

(** ** Further properties of the declared graphs *)

(** Splits a builder call on its four switches. *)
Ltac case_switches p :=
  destruct p as [? ? ? ? ? ? [] [] ? ? ? ? ? ? ? ? [] ? ? ? ? [] ? ? ? ?].

(** Shows that a list that computes to distinct strings has no
    duplicates. *)
Ltac distinct_strings :=
  repeat (apply NoDup_cons;
          [ let Hin := fresh "Hin" in
            intros Hin; simpl in Hin;
            repeat (destruct Hin as [Hin | Hin]; [ discriminate Hin | ]);
            exact Hin
          | ]);
  apply NoDup_nil.

Lemma has_link_In d up down :
  has_link d up down = true <-> In (up, down) (links d).
Proof.
  unfold has_link. rewrite existsb_exists. split.
  - intros ([u v] & Hin & Heq). unfold link_eqb in Heq. simpl in Heq.
    apply andb_prop in Heq. destruct Heq as [Hu Hv].
    apply String.eqb_eq in Hu. apply String.eqb_eq in Hv.
    subst. exact Hin.
  - intros Hin. exists (up, down). split; [ exact Hin | ].
    unfold link_eqb. simpl. now rewrite !String.eqb_refl.
Qed.

Lemma upstream_of_trans d a b c :
  upstream_of d a b -> upstream_of d b c -> upstream_of d a c.
Proof.
  intros Hab Hbc. induction Hab as [a b Hlink | a m b Hlink _ IH].
  - eapply upstream_step; eassumption.
  - eapply upstream_step; [ exact Hlink | exact (IH Hbc) ].
Qed.

Lemma upstream_of_snoc d up mid down :
  upstream_of d up mid -> has_link d mid down = true ->
  upstream_of d up down.
Proof.
  intros Hup Hlink. eapply upstream_of_trans; [ exact Hup | ].
  apply upstream_direct. exact Hlink.
Qed.

(** Builds the chain of links to a task from the task it starts at, going
    at each task to the one set downstream of it last. *)
Ltac forward_chain :=
  lazymatch goal with
  | |- upstream_of ?d ?a ?b =>
      first
        [ apply upstream_direct; vm_compute; reflexivity
        | let m := eval vm_compute in (last (downstream_ids d a) "") in
          apply (upstream_step d a m b);
          [ vm_compute; reflexivity | forward_chain ] ]
  end.

(** Builds the chain of links to a task from its end, going at each task to
    the one it was set downstream of first. *)
Ltac backward_chain :=
  lazymatch goal with
  | |- upstream_of ?d ?a ?b =>
      first
        [ apply upstream_direct; vm_compute; reflexivity
        | let m := eval vm_compute in (hd "" (upstream_ids d b)) in
          apply (upstream_of_snoc d a m b);
          [ backward_chain | vm_compute; reflexivity ] ]
  end.

(** When every link of a DAG goes forward in [pipeline_order], so does
    every chain of links. *)
Lemma upstream_of_increasing d :
  (forall l, In l (links d) -> (position (fst l) < position (snd l))%nat) ->
  forall up down, upstream_of d up down ->
    (position up < position down)%nat.
Proof.
  intros Hlinks up down Hup.
  induction Hup as [up down Hlink | up mid down Hlink _ IH].
  - apply has_link_In in Hlink. exact (Hlinks _ Hlink).
  - apply has_link_In in Hlink. apply Hlinks in Hlink. simpl in Hlink.
    exact (PeanoNat.Nat.lt_trans _ _ _ Hlink IH).
Qed.

Lemma built_links_increase (E : Externals) (p : Pipelines.parameters) :
  forall l, In l (links (Pipelines.pre_process_dicom_dag p)) ->
    (position (fst l) < position (snd l))%nat.
Proof.
  intros l Hin. case_switches p; vm_compute in Hin;
    each_member Hin; apply PeanoNat.Nat.ltb_lt; reflexivity.
Qed.

Lemma hardcoded_links_increase (E : Externals) :
  forall l, In l (links Hardcoded.dag) ->
    (position (fst l) < position (snd l))%nat.
Proof.
  intros l Hin. vm_compute in Hin;
    each_member Hin; apply PeanoNat.Nat.ltb_lt; reflexivity.
Qed.

(** X1.  In every DAG the repository declares (the built one for all
    switches, and the hard-coded one) the task ids are pairwise distinct:
    no id is declared twice. *)
Theorem task_ids_distinct (E : Externals) (p : Pipelines.parameters) :
  NoDup (task_ids (Pipelines.pre_process_dicom_dag p)) /\
  NoDup (task_ids Hardcoded.dag).
Proof.
  split.
  - case_switches p; vm_compute; distinct_strings.
  - vm_compute; distinct_strings.
Qed.

(** X2.  Every [set_upstream] call joins two tasks declared in the same
    DAG, in the built DAG for all switches and in the hard-coded one. *)
Theorem links_join_declared_tasks
  (E : Externals) (p : Pipelines.parameters) :
  (forall up down,
     has_link (Pipelines.pre_process_dicom_dag p) up down = true ->
     has_task (Pipelines.pre_process_dicom_dag p) up = true /\
     has_task (Pipelines.pre_process_dicom_dag p) down = true) /\
  (forall up down,
     has_link Hardcoded.dag up down = true ->
     has_task Hardcoded.dag up = true /\
     has_task Hardcoded.dag down = true).
Proof.
  split; intros up down Hlink; apply has_link_In in Hlink.
  - case_switches p; vm_compute in Hlink; each_member Hlink;
      match goal with H : (_, _) = (_, _) |- _ => injection H as <- <- end;
      split; vm_compute; reflexivity.
  - vm_compute in Hlink; each_member Hlink;
      match goal with H : (_, _) = (_, _) |- _ => injection H as <- <- end;
      split; vm_compute; reflexivity.
Qed.

(** The theorem above at the sample call and one of its links. *)
Lemma links_join_declared_tasks_witness :
  has_task (@Pipelines.pre_process_dicom_dag sample_externals
              sample_parameters) "extract_nifti_mpm_info" = true /\
  has_task (@Hardcoded.dag sample_externals) "mpm_maps_pipeline" = true.
Proof.
  destruct (links_join_declared_tasks sample_externals sample_parameters)
    as [Hbuilt Hfixed].
  split.
  - exact (proj1 (Hbuilt "extract_nifti_mpm_info" "notify_success"
                    eq_refl)).
  - exact (proj2 (Hfixed "dicom_to_nifti_pipeline" "mpm_maps_pipeline"
                    eq_refl)).
Defined.

(** X3.  One fixed order of the task ids, [pipeline_order], is respected by
    every DAG the repository declares: whenever a task is upstream of
    another, through any chain of links, it comes earlier in that order.
    So no DAG has a cycle: no task is upstream of itself. *)
Theorem upstream_follows_pipeline_order
  (E : Externals) (p : Pipelines.parameters) :
  (forall up down,
     upstream_of (Pipelines.pre_process_dicom_dag p) up down ->
     (position up < position down)%nat) /\
  (forall up down,
     upstream_of Hardcoded.dag up down ->
     (position up < position down)%nat) /\
  (forall id, ~ upstream_of (Pipelines.pre_process_dicom_dag p) id id) /\
  (forall id, ~ upstream_of Hardcoded.dag id id).
Proof.
  pose proof (upstream_of_increasing _ (built_links_increase E p)) as Hbuilt.
  pose proof (upstream_of_increasing _ (hardcoded_links_increase E))
    as Hfixed.
  split; [ exact Hbuilt | ].
  split; [ exact Hfixed | ].
  split; intros id Hcycle.
  - exact (PeanoNat.Nat.lt_irrefl _ (Hbuilt id id Hcycle)).
  - exact (PeanoNat.Nat.lt_irrefl _ (Hfixed id id Hcycle)).
Qed.

(** The theorem above on the chain from the free-space check to the atlas
    extraction of the sample call. *)
Lemma upstream_follows_pipeline_order_witness :
  upstream_of (@Pipelines.pre_process_dicom_dag sample_externals
                 sample_parameters)
              "check_free_space" "extract_nifti_atlas_info" /\
  (position "check_free_space" < position "extract_nifti_atlas_info")%nat.
Proof.
  assert (Hchain :
            upstream_of (@Pipelines.pre_process_dicom_dag sample_externals
                           sample_parameters)
                        "check_free_space" "extract_nifti_atlas_info")
    by backward_chain.
  split; [ exact Hchain | ].
  exact (proj1 (upstream_follows_pipeline_order sample_externals
                  sample_parameters) _ _ Hchain).
Defined.

(** X4.  In every DAG the repository declares, [check_free_space] is the
    one root: nothing is upstream of it, and it is upstream of every other
    declared task, so no task can run before the free-space check. *)
Theorem check_free_space_is_the_root
  (E : Externals) (p : Pipelines.parameters) :
  (forall id, ~ upstream_of (Pipelines.pre_process_dicom_dag p)
                            id "check_free_space") /\
  (forall id, In id (task_ids (Pipelines.pre_process_dicom_dag p)) ->
     id <> "check_free_space" ->
     upstream_of (Pipelines.pre_process_dicom_dag p) "check_free_space" id) /\
  (forall id, ~ upstream_of Hardcoded.dag id "check_free_space") /\
  (forall id, In id (task_ids Hardcoded.dag) ->
     id <> "check_free_space" ->
     upstream_of Hardcoded.dag "check_free_space" id).
Proof.
  split; [ intros id Hup | ].
  { apply (upstream_of_increasing _ (built_links_increase E p)) in Hup.
    exact (PeanoNat.Nat.nlt_0_r _ Hup). }
  split; [ intros id Hin Hother | ].
  { case_switches p; vm_compute in Hin; each_member Hin;
      try (exfalso; apply Hother; reflexivity);
      backward_chain. }
  split; [ intros id Hup | intros id Hin Hother ].
  { apply (upstream_of_increasing _ (hardcoded_links_increase E)) in Hup.
    exact (PeanoNat.Nat.nlt_0_r _ Hup). }
  { vm_compute in Hin; each_member Hin;
      try (exfalso; apply Hother; reflexivity);
      backward_chain. }
Qed.

(** The theorem above for the last task of the sample call and of the
    hard-coded module. *)
Lemma check_free_space_is_the_root_witness :
  upstream_of (@Pipelines.pre_process_dicom_dag sample_externals
                 sample_parameters) "check_free_space" "notify_success" /\
  upstream_of (@Hardcoded.dag sample_externals)
              "check_free_space" "extract_nifti_atlas_info".
Proof.
  destruct (check_free_space_is_the_root sample_externals sample_parameters)
    as (_ & Hbuilt & _ & Hfixed).
  split.
  - apply Hbuilt; [ vm_compute; tauto | discriminate ].
  - apply Hfixed; [ vm_compute; tauto | discriminate ].
Defined.

(** X5.  In the built DAG, for all switches, every declared task other than
    [cleanup_local_dicom] and [notify_success] itself is upstream of
    [notify_success]; [cleanup_local_dicom] and [notify_success] are
    upstream of nothing.  Success is thus notified after every step except
    the cleanup of the local DICOM files, which nothing waits for. *)
Theorem notify_success_waits_for_all_but_cleanup
  (E : Externals) (p : Pipelines.parameters) :
  let d := Pipelines.pre_process_dicom_dag p in
  (forall id, In id (task_ids d) ->
     id <> "cleanup_local_dicom" -> id <> "notify_success" ->
     upstream_of d id "notify_success") /\
  (forall id, ~ upstream_of d "cleanup_local_dicom" id) /\
  (forall id, ~ upstream_of d "notify_success" id).
Proof.
  cbv zeta. split; [ intros id Hin Hcleanup Hnotify | ].
  { case_switches p; vm_compute in Hin; each_member Hin;
      try (exfalso; apply Hcleanup; reflexivity);
      try (exfalso; apply Hnotify; reflexivity);
      forward_chain. }
  split; intros id Hup;
    assert (Hlink : exists mid,
              has_link (Pipelines.pre_process_dicom_dag p) _ mid = true)
      by (inversion Hup; eexists; eassumption);
    destruct Hlink as [mid Hlink]; clear Hup;
    case_switches p;
    vm_compute in Hlink; discriminate Hlink.
Qed.

(** The theorem above for the first task of the sample call. *)
Lemma notify_success_waits_for_all_but_cleanup_witness :
  upstream_of (@Pipelines.pre_process_dicom_dag sample_externals
                 sample_parameters) "check_free_space" "notify_success".
Proof.
  apply (proj1 (notify_success_waits_for_all_but_cleanup sample_externals
                  sample_parameters));
    [ vm_compute; tauto | discriminate | discriminate ].
Defined.

(** X6.  In every DAG the repository declares, each task other than the
    root [check_free_space] and the join [notify_success] is set downstream
    of exactly one task, and a task that declares a [parent_task] names
    exactly that task: the task whose results it reads is the one it waits
    for. *)
Theorem single_upstream_is_parent_task
  (E : Externals) (p : Pipelines.parameters) :
  (forall o, In o (tasks (Pipelines.pre_process_dicom_dag p)) ->
     task_id o <> "check_free_space" -> task_id o <> "notify_success" ->
     exists up,
       upstream_ids (Pipelines.pre_process_dicom_dag p) (task_id o) = [up] /\
       (forall parent, lookup "parent_task" (op_kwargs o) = Some parent ->
          parent = PyStr up)) /\
  (forall o, In o (tasks Hardcoded.dag) ->
     task_id o <> "check_free_space" ->
     exists up,
       upstream_ids Hardcoded.dag (task_id o) = [up] /\
       (forall parent, lookup "parent_task" (op_kwargs o) = Some parent ->
          parent = PyStr up)).
Proof.
  split.
  - intros o Hin Hroot Hjoin.
    case_switches p; vm_compute in Hin; each_member Hin;
      try (exfalso; apply Hroot; reflexivity);
      try (exfalso; apply Hjoin; reflexivity);
      (eexists; split;
       [ vm_compute; reflexivity
       | intros parent Hparent; vm_compute in Hparent;
         first [ discriminate Hparent
               | injection Hparent as <-; reflexivity ] ]).
  - intros o Hin Hroot.
    vm_compute in Hin; each_member Hin;
      try (exfalso; apply Hroot; reflexivity);
      (eexists; split;
       [ vm_compute; reflexivity
       | intros parent Hparent; vm_compute in Hparent;
         first [ discriminate Hparent
               | injection Hparent as <-; reflexivity ] ]).
Qed.

(** The theorem above for the converter of the sample call, which reads
    the results of [extract_dicom_info] and waits for it. *)
Lemma single_upstream_is_parent_task_witness :
  exists up,
    upstream_ids (@Pipelines.pre_process_dicom_dag sample_externals
                    sample_parameters) "dicom_to_nifti_pipeline" = [up] /\
    task_kwarg (@Pipelines.pre_process_dicom_dag sample_externals
                  sample_parameters) "dicom_to_nifti_pipeline" "parent_task"
      = Some (PyStr up).
Proof.
  assert (Hfound : exists o,
             find_task (@Pipelines.pre_process_dicom_dag sample_externals
                          sample_parameters) "dicom_to_nifti_pipeline"
               = Some o /\
             task_id o = "dicom_to_nifti_pipeline" /\
             lookup "parent_task" (op_kwargs o)
               = Some (PyStr "extract_dicom_info"))
    by (eexists; split; [ vm_compute; reflexivity | split; reflexivity ]).
  destruct Hfound as (o & Hfind & Hid & Hparent).
  destruct (proj1 (single_upstream_is_parent_task sample_externals
                     sample_parameters) o)
    as (up & Hup & Hnames).
  - apply find_some in Hfind. exact (proj1 Hfind).
  - rewrite Hid. discriminate.
  - rewrite Hid. discriminate.
  - exists up. rewrite Hid in Hup. split; [ exact Hup | ].
    unfold task_kwarg. rewrite Hfind. rewrite Hparent.
    f_equal. exact (Hnames _ Hparent).
Defined.

(** X7.  Priority weights along the links.  In the hard-coded DAG, and in
    the built DAG when [dicom_organizer] is off, every link between two
    tasks that declare a priority weight goes to a strictly larger weight.
    When [dicom_organizer] is on, the link dicom_organizer_pipeline ->
    extract_dicom_info goes from weight 20 down to 15, and it is the only
    link that does not go up. *)
Theorem priority_weights_along_links
  (E : Externals) (p : Pipelines.parameters) :
  let d := Pipelines.pre_process_dicom_dag p in
  (forall up down w_up w_down,
     has_link d up down = true ->
     weight d up = Some w_up -> weight d down = Some w_down ->
     w_up < w_down \/
     (Pipelines.dicom_organizer p = true /\
      up = "dicom_organizer_pipeline" /\ down = "extract_dicom_info")) /\
  (Pipelines.dicom_organizer p = true ->
     has_link d "dicom_organizer_pipeline" "extract_dicom_info" = true /\
     weight d "dicom_organizer_pipeline" = Some 20 /\
     weight d "extract_dicom_info" = Some 15) /\
  (forall up down w_up w_down,
     has_link Hardcoded.dag up down = true ->
     weight Hardcoded.dag up = Some w_up ->
     weight Hardcoded.dag down = Some w_down ->
     w_up < w_down).
Proof.
  cbv zeta. split; [ | split ].
  - intros up down w_up w_down Hlink Hup Hdown.
    apply has_link_In in Hlink.
    case_switches p; vm_compute in Hlink; each_member Hlink;
      match goal with H : (_, _) = (_, _) |- _ => injection H as <- <- end;
      vm_compute in Hup; vm_compute in Hdown;
      first [ discriminate Hup
            | discriminate Hdown
            | injection Hup as <-; injection Hdown as <-;
              first [ left; reflexivity
                    | right; repeat split; reflexivity ] ].
  - intros Horganizer.
    case_switches p; simpl in Horganizer; try discriminate Horganizer;
      repeat split; vm_compute; reflexivity.
  - intros up down w_up w_down Hlink Hup Hdown.
    apply has_link_In in Hlink.
    vm_compute in Hlink; each_member Hlink;
      match goal with H : (_, _) = (_, _) |- _ => injection H as <- <- end;
      vm_compute in Hup; vm_compute in Hdown;
      first [ discriminate Hup
            | discriminate Hdown
            | injection Hup as <-; injection Hdown as <-; reflexivity ].
Qed.

(** The theorem above on two links of the call with every optional step
    on, and on one link of the hard-coded DAG. *)
Lemma priority_weights_along_links_witness :
  weight (@Pipelines.pre_process_dicom_dag sample_externals
            sample_with_organizer) "extract_dicom_info" = Some 15 /\
  (20 < 30 \/
   (Pipelines.dicom_organizer sample_with_organizer = true /\
    "dicom_to_nifti_pipeline" = "dicom_organizer_pipeline" /\
    "mpm_maps_pipeline" = "extract_dicom_info")) /\
  12 < 20.
Proof.
  destruct (priority_weights_along_links sample_externals
              sample_with_organizer) as (Hbuilt & Horganizer & Hfixed).
  split; [ exact (proj2 (proj2 (Horganizer eq_refl))) | ].
  split.
  - apply (Hbuilt "dicom_to_nifti_pipeline" "mpm_maps_pipeline");
      vm_compute; reflexivity.
  - apply (Hfixed "prepare_pipeline" "dicom_to_nifti_pipeline");
      vm_compute; reflexivity.
Defined.

(** X8.  In the hard-coded DAG the conversion does not wait for the DICOM
    metadata: [extract_dicom_info] has no downstream task, and neither of
    [extract_dicom_info] and [dicom_to_nifti_pipeline] is upstream of the
    other; both are set directly downstream of [prepare_pipeline]. *)
Theorem hardcoded_conversion_beside_extraction (E : Externals) :
  downstream_ids Hardcoded.dag "extract_dicom_info" = [] /\
  ~ upstream_of Hardcoded.dag "extract_dicom_info" "dicom_to_nifti_pipeline" /\
  ~ upstream_of Hardcoded.dag "dicom_to_nifti_pipeline" "extract_dicom_info" /\
  upstream_ids Hardcoded.dag "extract_dicom_info" = ["prepare_pipeline"] /\
  upstream_ids Hardcoded.dag "dicom_to_nifti_pipeline" = ["prepare_pipeline"].
Proof.
  split; [ vm_compute; reflexivity | ].
  split; [ intros Hup | ].
  { assert (Hlink : exists mid,
              has_link Hardcoded.dag "extract_dicom_info" mid = true)
      by (inversion Hup; eexists; eassumption).
    destruct Hlink as [mid Hlink]. vm_compute in Hlink.
    discriminate Hlink. }
  split; [ intros Hup | ].
  { apply (upstream_of_increasing _ (hardcoded_links_increase E)) in Hup.
    apply PeanoNat.Nat.ltb_lt in Hup. vm_compute in Hup.
    discriminate Hup. }
  split; vm_compute; reflexivity.
Qed.

(** ** Further properties of the DAG id *)

Lemma replace_space_has_no_space s :
  has_space (Pipelines.replace_space s) = false.
Proof.
  induction s as [| c rest IH]; [ reflexivity | ].
  simpl. destruct (Ascii.eqb c " ") eqn:Hc.
  - simpl. exact IH.
  - rewrite Hc. simpl. exact IH.
Qed.

Lemma has_space_append a b :
  has_space (a ++ b) = (has_space a || has_space b)%bool.
Proof.
  induction a as [| c rest IH]; [ reflexivity | ].
  simpl. rewrite IH. now destruct (Ascii.eqb c " ").
Qed.

Lemma length_replace_space s :
  String.length (Pipelines.replace_space s) = String.length s.
Proof.
  induction s as [| c rest IH]; [ reflexivity | ].
  simpl. now rewrite IH.
Qed.

Lemma length_append_string a b :
  String.length (a ++ b) = (String.length a + String.length b)%nat.
Proof.
  induction a as [| c rest IH]; [ reflexivity | ].
  simpl. now rewrite IH.
Qed.

Lemma built_dag_id (E : Externals) (p : Pipelines.parameters) :
  dag_id (Pipelines.pre_process_dicom_dag p)
    = Pipelines.replace_space (str_lower (Pipelines.dataset p))
      ++ "_mri_pre_process_dicom".
Proof. case_switches p; reflexivity. Qed.

(** X9.  Whatever the dataset name and the switches, the id of the built
    DAG is the lower-cased name with every space replaced by an underscore,
    followed by [_mri_pre_process_dicom]: it contains no space and is 22
    characters longer than the lower-cased name. *)
Theorem built_dag_id_has_no_space
  (E : Externals) (p : Pipelines.parameters) :
  let id := dag_id (Pipelines.pre_process_dicom_dag p) in
  id = Pipelines.replace_space (str_lower (Pipelines.dataset p))
       ++ "_mri_pre_process_dicom" /\
  has_space id = false /\
  String.length id
    = (String.length (str_lower (Pipelines.dataset p)) + 22)%nat.
Proof.
  cbv zeta. rewrite built_dag_id.
  split; [ reflexivity | ].
  split.
  - rewrite has_space_append, replace_space_has_no_space. reflexivity.
  - rewrite length_append_string, length_replace_space. reflexivity.
Qed.

(** ** Further properties of the callables *)

(** X10.  [extract_dicom_info_fn], in both modules: when [visit_info]
    raises, the exception propagates and [dicom2db] is not called; when
    [visit_info] returns and [dicom2db] raises, the exception propagates
    after the three calls and no dictionary is returned. *)
Theorem extract_dicom_info_fn_failures
  (E : Externals) (p : Pipelines.parameters)
  (folder : string) (session_id : pyval) (kw : kwargs) :
  let logged :=
    Called "logging.info"
      [PyStr (percent_format "folder %s, session_id %s"
                             [PyStr folder; session_id])] in
  (forall e, visit_info folder = Err e ->
     let expected :=
       (@Err pyval e,
        [ logged; Called "dicom_import.visit_info" [PyStr folder] ]) in
     run_io (Pipelines.extract_dicom_info_fn p folder session_id kw)
       = expected /\
     run_io (Hardcoded.extract_dicom_info_fn folder session_id kw)
       = expected) /\
  (forall visited e, visit_info folder = Ok visited ->
     dicom2db folder = Err e ->
     let expected :=
       (@Err pyval e,
        [ logged; Called "dicom_import.visit_info" [PyStr folder];
          Called "dicom_import.dicom2db" [PyStr folder] ]) in
     run_io (Pipelines.extract_dicom_info_fn p folder session_id kw)
       = expected /\
     run_io (Hardcoded.extract_dicom_info_fn folder session_id kw)
       = expected).
Proof.
  cbv zeta. split.
  - intros e Hvisit.
    unfold run_io, Pipelines.extract_dicom_info_fn,
      Hardcoded.extract_dicom_info_fn, io_bind, call, lift, io_ret.
    cbn. rewrite Hvisit. split; reflexivity.
  - intros [participant date] e Hvisit Hdb.
    unfold run_io, Pipelines.extract_dicom_info_fn,
      Hardcoded.extract_dicom_info_fn, io_bind, call, lift, io_ret.
    cbn. rewrite Hvisit. cbn. rewrite Hdb. split; reflexivity.
Qed.

(** The theorem above in a world where [visit_info] raises and in one where
    [dicom2db] raises. *)
Lemma extract_dicom_info_fn_failures_witness :
  called_functions
    (snd (run_io (@Pipelines.extract_dicom_info_fn failing_visit_externals
                    sample_parameters "/data/in/s1" (PyStr "s1") [])))
    = ["info"; "visit_info"] /\
  fst (run_io (@Hardcoded.extract_dicom_info_fn failing_import_externals
                 "/data/in/s1" (PyStr "s1") []))
    = Err (Raised "dicom_import.dicom2db").
Proof.
  split.
  - destruct (proj1 (extract_dicom_info_fn_failures failing_visit_externals
                       sample_parameters "/data/in/s1" (PyStr "s1") [])
                    (Raised "dicom_import.visit_info") eq_refl)
      as [Hbuilt _].
    rewrite Hbuilt. reflexivity.
  - destruct (proj2 (extract_dicom_info_fn_failures failing_import_externals
                       sample_parameters "/data/in/s1" (PyStr "s1") [])
                    (PyStr "PR00001", PyStr "2017-01-01")
                    (Raised "dicom_import.dicom2db") eq_refl eq_refl)
      as [_ Hfixed].
    rewrite Hfixed. reflexivity.
Defined.

(** X11.  [extract_nifti_info_fn], in both modules: when [nifti2db] raises,
    the exception propagates after the two calls and ["ok"] is not
    returned. *)
Theorem extract_nifti_info_fn_failure
  (E : Externals) (p : Pipelines.parameters)
  (folder : string) (session_id participant_id scan_date : pyval)
  (kw : kwargs) (e : exn) :
  nifti2db folder participant_id scan_date = Err e ->
  let expected :=
    (@Err pyval e,
     [ Called "logging.info"
         [PyStr (percent_format
                   "NIFTI extract: session_id=%s, input_folder=%s"
                   [session_id; PyStr folder])];
       Called "nifti_import.nifti2db"
         [PyStr folder; participant_id; scan_date] ]) in
  run_io (Pipelines.extract_nifti_info_fn p folder session_id
            participant_id scan_date kw) = expected /\
  run_io (Hardcoded.extract_nifti_info_fn folder session_id
            participant_id scan_date kw) = expected.
Proof.
  intros Hdb. cbv zeta.
  unfold run_io, Pipelines.extract_nifti_info_fn,
    Hardcoded.extract_nifti_info_fn, io_bind, call, lift, io_ret.
  cbn. rewrite Hdb. split; reflexivity.
Qed.

(** The theorem above in a world where [nifti2db] raises. *)
Lemma extract_nifti_info_fn_failure_witness :
  fst (run_io (@Pipelines.extract_nifti_info_fn failing_import_externals
                 sample_parameters "/data/in/s1" (PyStr "s1")
                 (PyStr "PR00001") (PyStr "2017-01-01") []))
    = Err (Raised "nifti_import.nifti2db").
Proof.
  destruct (extract_nifti_info_fn_failure failing_import_externals
              sample_parameters "/data/in/s1" (PyStr "s1") (PyStr "PR00001")
              (PyStr "2017-01-01") [] (Raised "nifti_import.nifti2db")
              eq_refl) as [Hbuilt _].
  rewrite Hbuilt. reflexivity.
Defined.

(** ** Further properties of the output folders *)

Lemma output_folder_of_strings folder session_id :
  call_output_folder_callable (output_folder_lambda (PyStr folder))
                              (PyStr session_id)
    = Value (PyStr ((folder ++ "/") ++ session_id)).
Proof. reflexivity. Qed.

Lemma output_folder_of_none session_id :
  call_output_folder_callable (output_folder_lambda PyNone) session_id
    = TypeError.
Proof. reflexivity. Qed.

(** X13.  Called with the required arguments only, [pre_process_dicom_dag]
    leaves every local folder at its default [None], and the
    [output_folder_callable] of each [SpmPipelineOperator] it declares then
    raises [TypeError] for every session id: [None + '/'] is evaluated
    first. *)
Theorem default_output_folders_raise
  (E : Externals) (dataset : string)
  (email_errors_to max_active_runs misc_library_path
   min_free_space_local_folder dicom_local_folder : pyval) :
  let d :=
    Pipelines.pre_process_dicom_dag
      (Pipelines.with_defaults dataset email_errors_to max_active_runs
         misc_library_path min_free_space_local_folder dicom_local_folder) in
  forall o, In o (tasks d) -> op_class o = SpmPipelineOperator ->
    exists callable,
      lookup "output_folder_callable" (op_kwargs o) = Some callable /\
      forall session_id,
        call_output_folder_callable callable session_id = TypeError.
Proof.
  cbv zeta. intros o Hin Hclass. vm_compute in Hin.
  each_member Hin; try discriminate Hclass;
    (eexists; split; [ reflexivity | intros session_id; reflexivity ]).
Qed.

(** The theorem above for the converter of the sample call and the session
    id ['s1']. *)
Lemma default_output_folders_raise_witness :
  exists callable,
    task_kwarg (@Pipelines.pre_process_dicom_dag sample_externals
                  sample_parameters)
               "dicom_to_nifti_pipeline" "output_folder_callable"
      = Some callable /\
    call_output_folder_callable callable (PyStr "s1") = TypeError.
Proof.
  assert (Hfound : exists o,
             find_task (@Pipelines.pre_process_dicom_dag sample_externals
                          sample_parameters) "dicom_to_nifti_pipeline"
               = Some o /\
             op_class o = SpmPipelineOperator)
    by (eexists; split; reflexivity).
  destruct Hfound as (o & Hfind & Hclass).
  destruct (default_output_folders_raise sample_externals "demo"
              (PyStr "ops@example.org") (PyInt 4) (PyStr "/opt/misc")
              (PyFloat 3 (-2)) (PyStr "/data/dicom") o
              (proj1 (find_some _ _ Hfind)) Hclass)
    as (callable & Hlookup & Hraises).
  exists callable. split; [ | exact (Hraises (PyStr "s1")) ].
  unfold task_kwarg.
  rewrite Hfind. exact Hlookup.
Defined.

(** X14.  The output folder of a session under a pipeline is that
    pipeline's own local folder, a slash, and the session id.  In the built
    DAG the callable of [dicom_to_nifti_pipeline] closes over
    [dicom_to_nifti_local_folder], and those of
    [dicom_organizer_pipeline], [mpm_maps_pipeline] and
    [neuro_morphometric_atlas_pipeline], when declared, over
    [dicom_organizer_local_folder], [mpm_maps_local_folder] and
    [neuro_morphometric_atlas_local_folder]; a callable that closes over a
    string gives the string, a slash and the session id.  In the hard-coded
    DAG the folders are the configured [NIFTI_LOCAL_FOLDER],
    [MPM_MAPS_LOCAL_FOLDER] and [NEURO_MORPHOMETRIC_ATLAS_LOCAL_FOLDER] of
    the three pipelines. *)
Theorem output_folders_of_sessions
  (E : Externals) (p : Pipelines.parameters) (session_id : string) :
  let built := Pipelines.pre_process_dicom_dag p in
  let fixed := Hardcoded.dag in
  let under path := Value (PyStr ((path ++ "/") ++ session_id)) in
  (forall path,
     call_output_folder_callable (output_folder_lambda (PyStr path))
                                 (PyStr session_id) = under path) /\
  task_kwarg built "dicom_to_nifti_pipeline" "output_folder_callable"
    = Some (output_folder_lambda (Pipelines.dicom_to_nifti_local_folder p)) /\
  (Pipelines.dicom_organizer p = true ->
   task_kwarg built "dicom_organizer_pipeline" "output_folder_callable"
     = Some (output_folder_lambda (Pipelines.dicom_organizer_local_folder p)))
  /\
  (Pipelines.mpm_maps p = true ->
   task_kwarg built "mpm_maps_pipeline" "output_folder_callable"
     = Some (output_folder_lambda (Pipelines.mpm_maps_local_folder p))) /\
  (Pipelines.neuro_morphometric_atlas p = true ->
   task_kwarg built "neuro_morphometric_atlas_pipeline"
              "output_folder_callable"
     = Some (output_folder_lambda
               (Pipelines.neuro_morphometric_atlas_local_folder p))) /\
  (forall id folder,
     In (id, folder)
        [ ("dicom_to_nifti_pipeline",
             configuration_get "mri" "NIFTI_LOCAL_FOLDER");
          ("mpm_maps_pipeline",
             configuration_get "mri" "MPM_MAPS_LOCAL_FOLDER");
          ("neuro_morphometric_atlas_pipeline",
             configuration_get "mri"
               "NEURO_MORPHOMETRIC_ATLAS_LOCAL_FOLDER") ] ->
     exists callable,
       task_kwarg fixed id "output_folder_callable" = Some callable /\
       callable = output_folder_lambda (PyStr folder) /\
       call_output_folder_callable callable (PyStr session_id)
         = under folder).
Proof.
  cbv zeta.
  split; [ intros path; apply output_folder_of_strings | ].
  split; [ case_switches p; vm_compute; reflexivity | ].
  split; [ intros Hon; case_switches p; simpl in Hon;
           try discriminate Hon; vm_compute; reflexivity | ].
  split; [ intros Hon; case_switches p; simpl in Hon;
           try discriminate Hon; vm_compute; reflexivity | ].
  split; [ intros Hon; case_switches p; simpl in Hon;
           try discriminate Hon; vm_compute; reflexivity | ].
  intros id folder Hin. simpl in Hin.
  repeat (destruct Hin as [Hin | Hin];
          [ injection Hin as <- <-; eexists;
            split; [ vm_compute; reflexivity | ];
            split; [ reflexivity | apply output_folder_of_strings ]
          | ]).
  contradiction.
Qed.

(** The theorem above for the MPM maps of the sample call and of the
    hard-coded module in the sample world, and the session id ['s1']. *)
Lemma output_folders_of_sessions_witness :
  task_kwarg (@Pipelines.pre_process_dicom_dag sample_externals
                sample_parameters)
             "mpm_maps_pipeline" "output_folder_callable"
    = Some (output_folder_lambda PyNone) /\
  exists callable,
    task_kwarg (@Hardcoded.dag sample_externals)
               "mpm_maps_pipeline" "output_folder_callable"
      = Some callable /\
    call_output_folder_callable callable (PyStr "s1")
      = Value (PyStr "/cfg/mri/MPM_MAPS_LOCAL_FOLDER/s1").
Proof.
  destruct (output_folders_of_sessions sample_externals sample_parameters
              "s1") as (_ & _ & _ & Hmpm & _ & Hfixed).
  split; [ exact (Hmpm eq_refl) | ].
  destruct (Hfixed "mpm_maps_pipeline"
              (@configuration_get sample_externals "mri"
                 "MPM_MAPS_LOCAL_FOLDER"))
    as (callable & Hkwarg & _ & Hcall); [ simpl; tauto | ].
  exists callable. split; [ exact Hkwarg | exact Hcall ].
Defined.

(** ** Further properties of the copy step *)

Lemma split_commas_not_empty s : CopyToLocal.split_commas s <> [].
Proof.
  destruct s as [| c rest]; simpl; [ discriminate | ].
  destruct (Ascii.eqb c ","); [ discriminate | ].
  destruct (CopyToLocal.split_commas rest); discriminate.
Qed.

(** X15.  Splitting at the commas loses nothing: joining the fields of
    [s.split(',')] with commas gives [s] back. *)
Theorem split_commas_join (s : string) :
  String.concat "," (CopyToLocal.split_commas s) = s.
Proof.
  induction s as [| c rest IH]; [ reflexivity | ].
  simpl. destruct (Ascii.eqb c ",") eqn:Hc.
  - apply Ascii.eqb_eq in Hc. subst c.
    pose proof (split_commas_not_empty rest) as Hne.
    simpl. destruct (CopyToLocal.split_commas rest) as [| field fields];
      [ contradiction | ].
    rewrite IH. reflexivity.
  - pose proof (split_commas_not_empty rest) as Hne.
    destruct (CopyToLocal.split_commas rest) as [| field fields];
      [ contradiction | ].
    simpl in *. destruct fields as [| next others].
    + now rewrite IH.
    + rewrite <- IH. reflexivity.
Qed.

(** X16.  [s.split(',')] has one field more than [s] has commas, so at
    least one, and no field contains a comma. *)
Theorem split_commas_fields (s : string) :
  length (CopyToLocal.split_commas s) = S (count_commas s) /\
  Forall (fun field => has_comma field = false) (CopyToLocal.split_commas s).
Proof.
  induction s as [| c rest [IHlen IHall]].
  - split; [ reflexivity | repeat constructor ].
  - simpl. destruct (Ascii.eqb c ",") eqn:Hc.
    + split; [ simpl; now rewrite IHlen | ].
      constructor; [ reflexivity | exact IHall ].
    + destruct (CopyToLocal.split_commas rest) as [| field fields].
      * discriminate IHlen.
      * split; [ exact IHlen | ].
        inversion IHall as [| ? ? Hfield Hfields]; subst.
        constructor; [ simpl; now rewrite Hc | exact Hfields ].
Qed.

(** X17.  When the four configuration calls return, [copy_to_local_cfg] is
    [copy_to_local_step] on what they returned, the store being the one
    [default_config] left.  The operator it declares gets one flag per
    comma-separated field of [INPUT_CONFIG], each stripped: one more than
    the value has commas, so never none, and a single flag for an empty
    value.  Its output folder for a session is the configured
    [OUTPUT_FOLDER], a slash, and the session id. *)
Theorem copy_to_local_cfg_reads
  (C : CopyToLocal.Configuration)
  (upstream_step : CopyToLocal.Step)
  (preprocessing_section step_section : string)
  (cfg cfg' : CopyToLocal.store) (dag : DAG)
  (input_config output_folder : string) (min_free_space : pyval) :
  CopyToLocal.default_config preprocessing_section "INPUT_CONFIG" "" cfg
    = Ok cfg' ->
  CopyToLocal.get preprocessing_section "INPUT_CONFIG" cfg'
    = Ok input_config ->
  CopyToLocal.getfloat preprocessing_section "MIN_FREE_SPACE" cfg'
    = Ok min_free_space ->
  CopyToLocal.get step_section "OUTPUT_FOLDER" cfg' = Ok output_folder ->
  let flags :=
    map CopyToLocal.str_strip (CopyToLocal.split_commas input_config) in
  exists step after copy_to_local,
    CopyToLocal.copy_to_local_cfg upstream_step preprocessing_section
      step_section cfg dag = Ok (step, after, cfg') /\
    (step, after)
      = CopyToLocal.copy_to_local_step upstream_step min_free_space
          (PyStr output_folder) flags dag /\
    CopyToLocal.task step = Some copy_to_local /\
    lookup "dataset_config" (op_kwargs copy_to_local)
      = Some (PyList (map PyStr flags)) /\
    length flags = S (count_commas input_config) /\
    (input_config = "" -> flags = [CopyToLocal.str_strip ""]) /\
    lookup "params" (op_kwargs copy_to_local)
      = Some (PyDict [("min_free_space", min_free_space)]) /\
    (forall session_id callable,
       lookup "output_folder_callable" (op_kwargs copy_to_local)
         = Some callable ->
       call_output_folder_callable callable (PyStr session_id)
         = Value (PyStr ((output_folder ++ "/") ++ session_id))).
Proof.
  intros Hdefault Hinput Hfloat Hfolder flags.
  unfold CopyToLocal.copy_to_local_cfg.
  rewrite Hdefault. simpl. rewrite Hinput. simpl.
  rewrite Hfloat. simpl. rewrite Hfolder. simpl.
  fold flags.
  destruct (CopyToLocal.copy_to_local_step upstream_step min_free_space
              (PyStr output_folder) flags dag) as [step after] eqn:Hstep.
  unfold CopyToLocal.copy_to_local_step, bind, instantiate, ret in Hstep.
  destruct dag as [id kw ts ls].
  destruct upstream_step as [[upstream_task |] step_id weight];
    cbn in Hstep; injection Hstep as <- <-;
    (eexists; eexists; eexists;
     split; [ reflexivity | ];
     split; [ reflexivity | ];
     split; [ reflexivity | ];
     split; [ reflexivity | ];
     split; [ unfold flags; rewrite length_map;
              exact (proj1 (split_commas_fields input_config)) | ];
     split; [ intros ->; reflexivity | ];
     split; [ reflexivity | ];
     intros session_id callable Hcallable; cbn in Hcallable;
     injection Hcallable as <-; apply output_folder_of_strings).
Qed.

(** The theorem above on the sample store, whose [INPUT_CONFIG] has one
    comma. *)
Lemma copy_to_local_cfg_reads_witness :
  exists step after,
    @CopyToLocal.copy_to_local_cfg sample_configuration sample_step
      "preprocessing" "preprocessing:copy_to_local" sample_store sample_dag
      = Ok (step, after, sample_store) /\
    task_kwarg after "copy_to_local" "dataset_config"
      = Some (PyList [PyStr "boost"; PyStr "session_id_by_patient"]).
Proof.
  destruct (copy_to_local_cfg_reads sample_configuration sample_step
              "preprocessing" "preprocessing:copy_to_local"
              sample_store sample_store sample_dag
              "boost, session_id_by_patient" "/data/local" (PyFloat 3 (-2))
              eq_refl eq_refl eq_refl eq_refl)
    as (step & after & op & Hrun & Hstep & _).
  exists step, after. split; [ exact Hrun | ].
  injection Hstep as -> ->. reflexivity.
Defined.

(** X18.  [copy_to_local_step] touches nothing that was declared before: the
    DAG keeps its id and arguments, its tasks and links stay where they
    were, before the new ones.  The handle it returns is consistent (it
    carries the id of the task it carries), and when the upstream handle is
    consistent and carries a task, the [parent_task] of the new operator is
    the id of the task it is linked under. *)
Theorem copy_to_local_step_keeps_handles_consistent
  (dag : DAG) (upstream_step : CopyToLocal.Step)
  (min_free_space output_folder : pyval) (dataset_config : list string) :
  let (step, after) :=
    CopyToLocal.copy_to_local_step upstream_step min_free_space output_folder
      dataset_config dag in
  dag_id after = dag_id dag /\
  dag_kwargs after = dag_kwargs dag /\
  firstn (length (tasks dag)) (tasks after) = tasks dag /\
  firstn (length (links dag)) (links after) = links dag /\
  consistent_step step /\
  (consistent_step upstream_step ->
   forall upstream_task copy_to_local,
     CopyToLocal.task upstream_step = Some upstream_task ->
     CopyToLocal.task step = Some copy_to_local ->
     lookup "parent_task" (op_kwargs copy_to_local)
       = Some (PyStr (task_id upstream_task)) /\
     In (task_id upstream_task, task_id copy_to_local) (links after)).
Proof.
  destruct upstream_step as [[upstream_task |] step_id weight];
    destruct dag as [id kw ts ls]; cbn.
  - split; [ reflexivity | ]. split; [ reflexivity | ].
    split; [ rewrite firstn_app, firstn_all, PeanoNat.Nat.sub_diag;
             simpl; apply app_nil_r | ].
    split; [ rewrite firstn_app, firstn_all, PeanoNat.Nat.sub_diag;
             simpl; apply app_nil_r | ].
    split; [ reflexivity | ].
    unfold consistent_step. cbn. intros Hconsistent t op Ht Hop.
    injection Ht as <-. injection Hop as <-. cbn.
    split; [ now rewrite Hconsistent | ].
    apply in_or_app. right. left. reflexivity.
  - split; [ reflexivity | ]. split; [ reflexivity | ].
    split; [ rewrite firstn_app, firstn_all, PeanoNat.Nat.sub_diag;
             simpl; apply app_nil_r | ].
    split; [ apply firstn_all | ].
    split; [ reflexivity | ].
    intros _ t op Ht. discriminate Ht.
Qed.

(** The theorem above at the sample step, which is consistent and carries
    the task [start]. *)
Lemma copy_to_local_step_keeps_handles_consistent_witness :
  consistent_step sample_step /\
  task_kwarg (snd (CopyToLocal.copy_to_local_step sample_step
                     (PyFloat 3 (-2)) (PyStr "/data/local") ["flag"]
                     sample_dag)) "copy_to_local" "parent_task"
    = Some (PyStr "start").
Proof.
  split; [ reflexivity | ].
  pose proof (copy_to_local_step_keeps_handles_consistent sample_dag
                sample_step (PyFloat 3 (-2)) (PyStr "/data/local") ["flag"])
    as Hkeeps.
  destruct (CopyToLocal.copy_to_local_step sample_step _ _ _ sample_dag)
    as [step after] eqn:Hstep.
  destruct Hkeeps as (_ & _ & _ & _ & _ & Hparent).
  cbn in Hstep. injection Hstep as <- <-.
  destruct (Hparent eq_refl sample_upstream_task _ eq_refl eq_refl)
    as [Hnames _].
  unfold task_kwarg. cbn. exact Hnames.
Defined.

(** ** Further properties of the optional steps *)

(** X19.  The optional steps are spliced into the chain.  In the built DAG
    [prepare_pipeline] waits for [copy_dicom_to_local] when the copy is on
    and for [check_free_space] otherwise; [extract_dicom_info] waits for
    [dicom_organizer_pipeline] when the organizer is on and for
    [prepare_pipeline] otherwise; and when the atlas is on,
    [neuro_morphometric_atlas_pipeline] waits for [mpm_maps_pipeline] when
    the MPM maps are on and for [dicom_to_nifti_pipeline] otherwise, and
    names the same task as its [parent_task]. *)
Theorem optional_steps_are_spliced_in
  (E : Externals) (p : Pipelines.parameters) :
  let d := Pipelines.pre_process_dicom_dag p in
  upstream_ids d "prepare_pipeline"
    = [ if Pipelines.copy_dicom_to_local p then "copy_dicom_to_local"
        else "check_free_space" ] /\
  upstream_ids d "extract_dicom_info"
    = [ if Pipelines.dicom_organizer p then "dicom_organizer_pipeline"
        else "prepare_pipeline" ] /\
  (Pipelines.neuro_morphometric_atlas p = true ->
   let before_atlas :=
     if Pipelines.mpm_maps p then "mpm_maps_pipeline"
     else "dicom_to_nifti_pipeline" in
   upstream_ids d "neuro_morphometric_atlas_pipeline" = [before_atlas] /\
   task_kwarg d "neuro_morphometric_atlas_pipeline" "parent_task"
     = Some (PyStr before_atlas)).
Proof.
  cbv zeta.
  split; [ case_switches p; vm_compute; reflexivity | ].
  split; [ case_switches p; vm_compute; reflexivity | ].
  intros Hatlas.
  case_switches p; simpl in Hatlas; try discriminate Hatlas;
    split; vm_compute; reflexivity.
Qed.

(** The theorem above at the sample call without the MPM maps. *)
Lemma optional_steps_are_spliced_in_witness :
  upstream_ids (@Pipelines.pre_process_dicom_dag sample_externals
                  (with_switches sample_parameters true false false true))
               "neuro_morphometric_atlas_pipeline"
    = ["dicom_to_nifti_pipeline"].
Proof.
  exact (proj1 (proj2 (proj2
           (optional_steps_are_spliced_in sample_externals
              (with_switches sample_parameters true false false true)))
           eq_refl)).
Defined.

(** X20.  Whatever the switches, [notify_success] is declared with
    [pipeline_trigger('extract_nifti_atlas_info')] as its callable: it
    names the atlas extraction as the task to read from also when
    [neuro_morphometric_atlas] is off, where no task of that id is
    declared. *)
Theorem notify_success_reads_atlas_extraction
  (E : Externals) (p : Pipelines.parameters) :
  let d := Pipelines.pre_process_dicom_dag p in
  task_class d "notify_success" = Some TriggerDagRunOperator /\
  task_kwarg d "notify_success" "python_callable"
    = Some (pipeline_trigger "extract_nifti_atlas_info") /\
  task_kwarg d "notify_success" "trigger_dag_id"
    = Some (PyStr "mri_notify_successful_processing") /\
  has_task d "extract_nifti_atlas_info"
    = Pipelines.neuro_morphometric_atlas p.
Proof.
  cbv zeta. case_switches p; repeat split; vm_compute; reflexivity.
Qed.

(** ** Further properties of the argument builders *)

(** X21.  The argument builders of the hard-coded module, where
    [protocols_file] is a module constant.  Called with a string as folder
    they return their list: the parent of the session folder, the session
    id, the configured folders and the protocols file in fixed places,
    whatever the participant id, the scan date and the extra keyword
    arguments.  Called with a folder of a builtin type on which
    [folder + '/..'] raises [TypeError] ([None], a number, a list, ...),
    they raise that [TypeError] and return no list. *)
Theorem hardcoded_argument_builders_return
  (E : Externals) (session_id participant_id scan_date : pyval)
  (kw : kwargs) :
  (forall folder : string,
     let parent_data_folder := PyStr (abspath (folder ++ "/..")) in
     Hardcoded.dicom_to_nifti_arguments_fn (PyStr folder) session_id
         participant_id scan_date kw
       = Ok (PyList [ parent_data_folder;
                      session_id;
                      PyStr (configuration_get "mri" "NIFTI_LOCAL_FOLDER");
                      PyStr (configuration_get "mri" "NIFTI_SERVER_FOLDER");
                      PyStr (configuration_get "mri" "PROTOCOLS_FILE") ]) /\
     Hardcoded.mpm_maps_arguments_fn (PyStr folder) session_id
         participant_id scan_date kw
       = Ok (PyList [ parent_data_folder;
                      session_id;
                      PyStr (configuration_get "mri" "MPM_MAPS_LOCAL_FOLDER");
                      PyStr (configuration_get "mri" "PROTOCOLS_FILE");
                      PyStr "Preproc_mpm_maps_pipeline_config.txt";
                      PyStr (configuration_get "mri"
                               "MPM_MAPS_SERVER_FOLDER") ]) /\
     Hardcoded.neuro_morphometric_atlas_arguments_fn (PyStr folder)
         session_id participant_id scan_date kw
       = Ok (PyList [ session_id;
                      parent_data_folder;
                      PyStr (configuration_get "mri"
                               "NEURO_MORPHOMETRIC_ATLAS_LOCAL_FOLDER");
                      PyStr (configuration_get "mri"
                               "NEURO_MORPHOMETRIC_ATLAS_SERVER_FOLDER");
                      PyStr (configuration_get "mri" "PROTOCOLS_FILE");
                      PyStr "csv" ])) /\
  (forall folder : pyval,
     py_add folder (PyStr "/..") = TypeError ->
     Hardcoded.dicom_to_nifti_arguments_fn folder session_id participant_id
         scan_date kw
       = Err (TypeErrorIn "folder + '/..'") /\
     Hardcoded.mpm_maps_arguments_fn folder session_id participant_id
         scan_date kw
       = Err (TypeErrorIn "folder + '/..'") /\
     Hardcoded.neuro_morphometric_atlas_arguments_fn folder session_id
         participant_id scan_date kw
       = Err (TypeErrorIn "folder + '/..'")).
Proof.
  split.
  - intros folder. cbv zeta. repeat split; reflexivity.
  - intros folder Hsum.
    unfold Hardcoded.dicom_to_nifti_arguments_fn,
      Hardcoded.mpm_maps_arguments_fn,
      Hardcoded.neuro_morphometric_atlas_arguments_fn, parent_folder.
    cbn. rewrite Hsum. repeat split; reflexivity.
Qed.

(** The theorem above in the sample world for the folder [None]. *)
Lemma hardcoded_argument_builders_return_witness :
  py_add PyNone (PyStr "/..") = TypeError /\
  @Hardcoded.mpm_maps_arguments_fn sample_externals PyNone (PyStr "s1")
      (PyStr "PR00001") (PyStr "2017-01-01") []
    = Err (TypeErrorIn "folder + '/..'").
Proof.
  split; [ reflexivity | ].
  exact (proj1 (proj2 (proj2 (hardcoded_argument_builders_return
                                sample_externals (PyStr "s1")
                                (PyStr "PR00001") (PyStr "2017-01-01") [])
                             PyNone eq_refl))).
Defined.
